(** * backfill_real_history: a shallow embedding and its properties

    The module [backfill_real_history.py] backfills a daily risk score from
    nine FRED series.  This development embeds its four functions
    ([fetch_series_history], [compute_risk], the closure [get_value] and
    [build_daily_history]) together with the Python builtins they rely on
    ([float], [min], [max], [round], [list.sort], [date + timedelta]) and
    proves properties of them.

    Numbers are binary64 floats (Rocq's primitive [float]), dates are
    proleptic Gregorian ordinals ([date.toordinal()]) and exceptions are
    values of an error monad. *)

From Stdlib Require Import ZArith List Bool Lia Floats String Ascii.
From Stdlib Require Import Sorted Permutation.
From Equations Require Import Equations.
Import ListNotations.

Set Warnings "-inexact-float".

(* ===================================================================== *)
(** * Exceptions *)
(* ===================================================================== *)

(** The exceptions the module can raise on the inputs modelled here. *)
Inductive exn : Type :=
| RetrievalError   (* requests.get / raise_for_status / resp.json failed *)
| KeyError         (* d[k] on a missing key *)
| OverflowError.   (* date + timedelta out of [date.min, date.max] *)

Inductive result (A : Type) : Type :=
| Ok (a : A)
| Raise (e : exn).
Arguments Ok {A} a.
Arguments Raise {A} e.

Definition bind {A B : Type} (r : result A) (k : A -> result B) : result B :=
  match r with
  | Ok a => k a
  | Raise e => Raise e
  end.

Declare Scope py_scope.
Delimit Scope py_scope with py.
Notation "x <- c ;; k" := (bind c (fun x => k))
  (at level 61, c at next level, right associativity) : py_scope.
Notation "' p <- c ;; k" := (bind c (fun p => k))
  (at level 61, p pattern, c at next level, right associativity) : py_scope.

(* ===================================================================== *)
(** * Python floats *)
(* ===================================================================== *)

Module PyFloat.

Local Open Scope Z_scope.

(** The binary64 number nearest to the rational [p / q] (ties to even),
    with the sign [neg]; [0 <= p] and [0 < q].  The quotient is computed
    with 55 significant bits or more and the position of the remainder,
    and rounded once by the format's rounding function, so the result is
    correctly rounded, subnormals and overflow to infinity included.  This
    is what [strtod] computes from a decimal string. *)
Definition nearest_float (neg : bool) (p q : Z) : float :=
  if p <=? 0 then (if neg then PrimFloat.neg_zero else PrimFloat.zero)
  else
    let k := 55 + Z.log2_up q - Z.log2 p in
    let num := if 0 <=? k then p * 2 ^ k else p in
    let den := if 0 <=? k then q else q * 2 ^ (- k) in
    let (mq, r) := Z.div_eucl num den in
    let loc := if r =? 0 then loc_Exact
               else loc_Inexact (Z.compare (2 * r) den) in
    SF2Prim (binary_round_aux prec emax neg mq (- k) loc).

(** The integer nearest to [a / b], ties to even ([0 <= a], [0 < b]). *)
Definition round_half_even (a b : Z) : Z :=
  let (q, r) := Z.div_eucl a b in
  match Z.compare (2 * r) b with
  | Lt => q
  | Gt => q + 1
  | Eq => if Z.even q then q else q + 1
  end.

(** [round(x, ndigits)] for a float [x] and [0 <= ndigits]: CPython prints
    the exact value of [x] correctly rounded (ties to even) to [ndigits]
    decimals and reads the decimal string back; NaN, the infinities and the
    zeros round to themselves. *)
Definition py_round (x : float) (ndigits : nat) : float :=
  match Prim2SF x with
  | S754_finite s m e =>
      let scale := 10 ^ Z.of_nat ndigits in
      let num := Zpos m * (if 0 <=? e then 2 ^ e else 1) * scale in
      let den := if 0 <=? e then 1 else 2 ^ (- e) in
      nearest_float s (round_half_even num den) scale
  | _ => x
  end.

(** [min(a, b)]: the first argument unless the second is smaller. *)
Definition py_min (a b : float) : float :=
  if (b <? a)%float then b else a.

(** [max(a, b)]: the first argument unless the second is greater. *)
Definition py_max (a b : float) : float :=
  if (a <? b)%float then b else a.

(** A float is finite when it is neither NaN nor an infinity
    ([math.isfinite]). *)
Definition finite (x : float) : bool := is_finite x.

(** ** [float(str)]

    The strings of the model are sequences of code points below 256.
    [float] maps the non-ASCII white space to a blank, strips the ASCII
    white space at both ends, checks and removes the underscores between
    digits, and reads a decimal literal (correctly rounded, overflowing to
    an infinity) or one of [inf], [infinity] and [nan] in any letter case.
    [None] stands for [ValueError]. *)

Definition code (c : ascii) : N := N_of_ascii c.

Definition is_digit (c : ascii) : bool :=
  ((48 <=? code c) && (code c <=? 57))%N.

Definition is_ascii_space (c : ascii) : bool :=
  ((9 <=? code c) && (code c <=? 13) || (code c =? 32))%N.

Definition is_latin1_space (c : ascii) : bool :=
  ((code c =? 133) || (code c =? 160))%N.

Definition to_lower (c : ascii) : ascii :=
  if ((65 <=? code c) && (code c <=? 90))%N
  then ascii_of_N (code c + 32) else c.

(** A string with a character outside ASCII is rewritten first: white
    space becomes a blank, and the first character that is neither white
    space nor a decimal digit becomes a question mark that ends the text. *)
Fixpoint transform_chars (s : list ascii) : list ascii :=
  match s with
  | [] => []
  | c :: t =>
      if (code c <? 127)%N then c :: transform_chars t
      else if is_latin1_space c then " "%char :: transform_chars t
      else ["?"%char]
  end.

Definition to_ascii_text (s : list ascii) : list ascii :=
  if forallb (fun c => (code c <? 128)%N) s then s else transform_chars s.

Fixpoint lstrip (s : list ascii) : list ascii :=
  match s with
  | c :: t => if is_ascii_space c then lstrip t else s
  | [] => []
  end.

Definition strip (s : list ascii) : list ascii :=
  rev (lstrip (rev (lstrip s))).

(** An underscore is accepted only between two digits; [prev] is the
    character before [s] (NUL at the start). *)
Fixpoint drop_underscores (prev : ascii) (s : list ascii)
  : option (list ascii) :=
  match s with
  | [] => if Ascii.eqb prev "_" then None else Some []
  | c :: t =>
      if Ascii.eqb c "_" then
        if is_digit prev then drop_underscores c t else None
      else if Ascii.eqb prev "_" && negb (is_digit c) then None
      else if Ascii.eqb c zero then None
      else option_map (cons c) (drop_underscores c t)
  end.

Definition without_underscores (s : list ascii) : option (list ascii) :=
  if existsb (fun c => Ascii.eqb c "_") s
  then drop_underscores zero s else Some s.

Definition parse_sign (s : list ascii) : bool * list ascii :=
  match s with
  | "-"%char :: t => (true, t)
  | "+"%char :: t => (false, t)
  | _ => (false, s)
  end.

Fixpoint span_digits (s : list ascii) : list ascii * list ascii :=
  match s with
  | c :: t =>
      if is_digit c then let (ds, r) := span_digits t in (c :: ds, r)
      else ([], s)
  | [] => ([], [])
  end.

Definition digits_value (ds : list ascii) : Z :=
  fold_left (fun acc c => 10 * acc + (Z.of_N (code c) - 48)) ds 0.

(** The exponent part: absent, or [e] or [E], a sign and one digit or more;
    an [e] without digits is not part of the number.  Returns the exponent
    and what is left of the text. *)
Definition parse_exponent (s : list ascii) : Z * list ascii :=
  match s with
  | c :: t =>
      if Ascii.eqb (to_lower c) "e" then
        let (eneg, t') := parse_sign t in
        let (ed, r) := span_digits t' in
        match ed with
        | [] => (0, s)
        | _ => ((if eneg then - digits_value ed else digits_value ed), r)
        end
      else (0, s)
  | [] => (0, [])
  end.

(** A decimal literal that takes the whole text. *)
Definition parse_decimal (s : list ascii) : option float :=
  let (neg, t) := parse_sign s in
  let (ip, r1) := span_digits t in
  let (fp, r2) := match r1 with
                  | "."%char :: t' => span_digits t'
                  | _ => ([], r1)
                  end in
  match ip ++ fp with
  | [] => None
  | ds =>
      match parse_exponent r2 with
      | (ex, []) =>
          let sc := ex - Z.of_nat (List.length fp) in
          Some (nearest_float neg (digits_value ds * 10 ^ Z.max sc 0)
                  (10 ^ Z.max (- sc) 0))
      | _ => None
      end
  end.

Definition same_text (s : list ascii) (t : string) : bool :=
  String.eqb (string_of_list_ascii s) t.

Definition parse_inf_or_nan (s : list ascii) : option float :=
  let (neg, t) := parse_sign s in
  let low := map to_lower t in
  if same_text low "inf" || same_text low "infinity"
  then Some (if neg then neg_infinity else infinity)
  else if same_text low "nan" then Some nan
  else None.

Definition py_float (s : string) : option float :=
  let text := strip (to_ascii_text (list_ascii_of_string s)) in
  match without_underscores text with
  | None => None
  | Some text =>
      match parse_decimal text with
      | Some x => Some x
      | None => parse_inf_or_nan text
      end
  end.

End PyFloat.
Export PyFloat.

(* ===================================================================== *)
(** * The risk scorer *)
(* ===================================================================== *)

Section Scorer.

Local Open Scope float_scope.

(** In [build_daily_history] every argument of [compute_risk] is [None] or
    a float produced by [fetch_series_history], on which [float(_)] is the
    identity and raises nothing. *)

(** Lines 52-58: [yc], the 10-year yield minus the 2-year yield. *)
Definition yield_curve (yield_10y yield_2y : option float) : option float :=
  match yield_10y, yield_2y with
  | Some y10, Some y2 => Some (y10 - y2)
  | _, _ => None
  end.

(** Lines 60-66. *)
Definition yield_curve_term (yc : option float) (risk : float) : float :=
  match yc with
  | Some yc =>
      if yc <? -0.5 then risk + 25
      else if yc <? 0 then risk + abs yc * 30
      else if 0.5 <? yc then risk - 5
      else risk
  | None => risk
  end.

(** Lines 68-74. *)
Definition unemployment_term (unemployment : option float) (risk : float)
  : float :=
  match unemployment with
  | Some u_rate =>
      if 5.0 <? u_rate then risk + (u_rate - 5.0) * 8
      else if u_rate <? 4.0 then risk - 3
      else risk
  | None => risk
  end.

(** Lines 76-80. *)
Definition initial_claims_term (initial_claims : option float) (risk : float)
  : float :=
  match initial_claims with
  | Some claims =>
      if 300000 <? claims then risk + (claims - 300000) / 10000.0
      else risk
  | None => risk
  end.

(** Lines 82-88. *)
Definition gdp_term (gdp_growth : option float) (risk : float) : float :=
  match gdp_growth with
  | Some gdp =>
      if gdp <? 0 then risk + 15
      else if gdp <? 2.0 then risk + (2.0 - gdp) * 5
      else risk
  | None => risk
  end.

(** Lines 90-96. *)
Definition consumer_sentiment_term (consumer_sentiment : option float)
  (risk : float) : float :=
  match consumer_sentiment with
  | Some cs =>
      if cs <? 70 then risk + 10
      else if cs <? 90 then risk + (90 - cs) / 4.0
      else risk
  | None => risk
  end.

(** Lines 98-102. *)
Definition credit_spread_term (credit_spread : option float) (risk : float)
  : float :=
  match credit_spread with
  | Some spread =>
      if 2.5 <? spread then risk + (spread - 2.5) * 8
      else risk
  | None => risk
  end.

(** Line 105. *)
Definition clamp (risk : float) : float := py_max 5.0 (py_min 95.0 risk).

(** The running score just before the clamp of line 105. *)
Definition raw_risk (yc unemployment initial_claims gdp_growth
  consumer_sentiment credit_spread : option float) : float :=
  let risk := 15.0 in
  let risk := yield_curve_term yc risk in
  let risk := unemployment_term unemployment risk in
  let risk := initial_claims_term initial_claims risk in
  let risk := gdp_term gdp_growth risk in
  let risk := consumer_sentiment_term consumer_sentiment risk in
  let risk := credit_spread_term credit_spread risk in
  risk.

(** [compute_risk], lines 42-106: returns [(risk_score, yield_curve_value)]. *)
Definition compute_risk (yield_10y yield_2y unemployment initial_claims
  gdp_growth industrial_prod consumer_sentiment credit_spread
  housing_starts : option float) : float * option float :=
  let yc := yield_curve yield_10y yield_2y in
  let risk := raw_risk yc unemployment initial_claims gdp_growth
                consumer_sentiment credit_spread in
  let risk := clamp risk in
  (py_round risk 1, yc).

End Scorer.

(* ===================================================================== *)
(** * Dates *)
(* ===================================================================== *)

Module PyDate.

Local Open Scope Z_scope.

(** A [datetime.date] is modelled by its ordinal ([toordinal()]): day 1 is
    0001-01-01 and [date.max], 9999-12-31, is day 3652059.  Dates compare
    as their ordinals do. *)
Abbreviation date := Z (only parsing).

Definition MAXORDINAL : Z := 3652059.

Definition valid_date (d : date) : Prop := 1 <= d <= MAXORDINAL.

(** [d + timedelta(days=n)]: [OverflowError] outside [date.min, date.max]. *)
Definition date_add_days (d : date) (n : Z) : result date :=
  let o := d + n in
  if (0 <? o) && (o <=? MAXORDINAL) then Ok o else Raise OverflowError.

End PyDate.
Export PyDate.

(* ===================================================================== *)
(** * Dictionaries *)
(* ===================================================================== *)

Section Dict.

Context {V : Type}.

(** A [dict] with string keys, in insertion order. *)
Definition dict : Type := list (string * V).

Fixpoint dict_get (d : dict) (k : string) : option V :=
  match d with
  | [] => None
  | (k', v) :: rest => if String.eqb k' k then Some v else dict_get rest k
  end.

(** [d[k] = v]: replaces the value of a key in place, or appends the key. *)
Fixpoint dict_set (d : dict) (k : string) (v : V) : dict :=
  match d with
  | [] => [(k, v)]
  | (k', v') :: rest =>
      if String.eqb k' k then (k', v) :: rest
      else (k', v') :: dict_set rest k v
  end.

Definition dict_keys (d : dict) : list string := map fst d.

(** [d[k]] as an expression. *)
Definition dict_item (d : dict) (k : string) : result V :=
  match dict_get d k with
  | Some v => Ok v
  | None => Raise KeyError
  end.

End Dict.
Arguments dict V : clear implicits.

(* ===================================================================== *)
(** * The series fetcher *)
(* ===================================================================== *)

(** An observation of a series: [(date, value)]. *)
Abbreviation observation := (date * float)%type (only parsing).

Section Fetcher.

Local Open Scope Z_scope.
Local Open Scope py_scope.

(** One entry of the provider's ["observations"] list, as a well-formed
    response has it: a ["date"] that [strptime] accepts (the model keeps
    the date it denotes) and a ["value"] that is missing or a string. *)
Record raw_observation : Type := {
  raw_date : date;
  raw_value : option string
}.

(** The decoded JSON body: the ["observations"] key may be missing. *)
Record response : Type := {
  observations : option (list raw_observation)
}.

(** [requests.get], [raise_for_status] and [resp.json()] for a series
    identifier, an observation start and an API key: the body, or the
    exception raised. *)
Definition provider : Type := string -> date -> string -> result response.

(** [list.sort(key=...)] is a stable ascending sort; the result of a stable
    sort is unique, and insertion from the right computes it. *)
Fixpoint insert_by_key {A : Type} (key : A -> Z) (x : A) (l : list A)
  : list A :=
  match l with
  | [] => [x]
  | y :: t =>
      if key x <=? key y then x :: y :: t
      else y :: insert_by_key key x t
  end.

Definition sort_by_key {A : Type} (key : A -> Z) (l : list A) : list A :=
  fold_right (insert_by_key key) [] l.

(** The body of the loop of lines 27-36, on the list built so far. *)
Definition keep_observation (acc : list observation) (obs : raw_observation)
  : list observation :=
  match raw_value obs with
  | None => acc
  | Some val =>
      if String.eqb val "." then acc
      else
        match py_float val with
        | None => acc
        | Some v => acc ++ [(raw_date obs, v)]
        end
  end.

(** [fetch_series_history], lines 10-39. *)
Definition fetch_series_history (http : provider) (series_id : string)
  (start_date : date) (api_key : string) : result (list observation) :=
  data <- http series_id start_date api_key ;;
  let entries := match observations data with
                 | Some l => l
                 | None => []
                 end in
  let observations := fold_left keep_observation entries [] in
  Ok (sort_by_key fst observations).

End Fetcher.

(* ===================================================================== *)
(** * The forward-fill cursors *)
(* ===================================================================== *)

Section Cursors.

Local Open Scope Z_scope.

(** A cursor ([{"obs": obs, "idx": 0, "current": None}], line 139). *)
Record cursor : Type := {
  obs : list observation;
  idx : nat;
  current : option float
}.

(** The loop of lines 148-150 on [rest], the observations from index [idx]
    on: it runs while there is an observation at [idx] and its date is at
    most [date]. *)
Fixpoint advance (rest : list observation) (date : date) (idx : nat)
  (current : option float) : nat * option float :=
  match rest with
  | (d, v) :: rest' =>
      if d <=? date then advance rest' date (S idx) (Some v)
      else (idx, current)
  | [] => (idx, current)
  end.

(** The body of [get_value] on the cursor [c]: the value returned and the
    cursor as lines 152-153 leave it. *)
Definition cursor_value (c : cursor) (date : date) : option float * cursor :=
  let (idx', current') :=
    advance (skipn (idx c) (obs c)) date (idx c) (current c) in
  (current', {| obs := obs c; idx := idx'; current := current' |}).

(** [get_value], lines 141-154, on the dictionary [cursors] it closes over. *)
Definition get_value (cursors : dict cursor) (label : string) (date : date)
  : result (option float * dict cursor) :=
  match dict_get cursors label with
  | None => Raise KeyError
  | Some c =>
      let (current', c') := cursor_value c date in
      Ok (current', dict_set cursors label c')
  end.

End Cursors.

(* ===================================================================== *)
(** * The history builder *)
(* ===================================================================== *)

Section Builder.

Local Open Scope string_scope.
Local Open Scope Z_scope.
Local Open Scope py_scope.

(** A daily record.  The code stores [d.strftime("%Y-%m-%d")], the ISO
    text of the day [d]; the model keeps the day. *)
Record daily_record : Type := {
  record_date : date;
  record_risk : float
}.

(** Lines 114-124. *)
Definition series_map : dict string :=
  [ ("DGS10", "yield_10y");
    ("DGS2", "yield_2y");
    ("UNRATE", "unemployment");
    ("ICSA", "initial_claims");
    ("A191RL1Q225SBEA", "gdp_growth");
    ("INDPRO", "industrial_prod");
    ("UMCSENT", "consumer_sentiment");
    ("BAMLC0A4CBBB", "credit_spread");
    ("HOUST", "housing_starts") ].

(** Lines 129-134: the loop over [series_map.items()]. *)
Fixpoint fetch_all (http : provider) (start_date : date) (api_key : string)
  (items : list (string * string)) (history_series : dict (list observation))
  : result (dict (list observation)) :=
  match items with
  | [] => Ok history_series
  | (fred_id, label) :: rest =>
      obs <- fetch_series_history http fred_id start_date api_key ;;
      fetch_all http start_date api_key rest (dict_set history_series label obs)
  end.

(** Lines 137-139. *)
Definition make_cursors (history_series : dict (list observation))
  : dict cursor :=
  fold_left
    (fun cursors item =>
       dict_set cursors (fst item)
         {| obs := snd item; idx := 0%nat; current := None |})
    history_series [].

(** Line 160: the comprehension over [cursors.keys()]. *)
Fixpoint query_all (labels : list string) (cursors : dict cursor) (d : date)
  (vals : dict (option float))
  : result (dict (option float) * dict cursor) :=
  match labels with
  | [] => Ok (vals, cursors)
  | label :: rest =>
      '(v, cursors') <- get_value cursors label d ;;
      query_all rest cursors' d (dict_set vals label v)
  end.

(** Lines 160-177: one iteration of the loop, up to the record. *)
Definition score_day (cursors : dict cursor) (d : date)
  : result (daily_record * dict cursor) :=
  '(vals, cursors') <- query_all (dict_keys cursors) cursors d [] ;;
  yield_10y <- dict_item vals "yield_10y" ;;
  yield_2y <- dict_item vals "yield_2y" ;;
  unemployment <- dict_item vals "unemployment" ;;
  initial_claims <- dict_item vals "initial_claims" ;;
  gdp_growth <- dict_item vals "gdp_growth" ;;
  industrial_prod <- dict_item vals "industrial_prod" ;;
  consumer_sentiment <- dict_item vals "consumer_sentiment" ;;
  credit_spread <- dict_item vals "credit_spread" ;;
  housing_starts <- dict_item vals "housing_starts" ;;
  let (risk, yc) :=
    compute_risk yield_10y yield_2y unemployment initial_claims gdp_growth
      industrial_prod consumer_sentiment credit_spread housing_starts in
  Ok ({| record_date := d; record_risk := risk |}, cursors').

(** A value together with the equation that it is the value of [x]. *)
Definition inspect {A : Type} (x : A) : {y : A | x = y} := exist _ x eq_refl.

Local Notation "x 'eqn:' p" := (exist _ x p) (only parsing, at level 20).

(** Lines 157-180: the loop [while d <= end_date], from the day [d] with
    the cursors and the results so far. *)
Equations? daily_loop (end_date d : date) (cursors : dict cursor)
  (results : list daily_record) : result (list daily_record)
  by wf (Z.to_nat (end_date + 1 - d)) lt :=
  daily_loop end_date d cursors results with inspect (d <=? end_date)%Z := {
    | false eqn: Hle => Ok results
    | true eqn: Hle with score_day cursors d := {
        | Raise e => Raise e
        | Ok (record, cursors') with inspect (date_add_days d 1) := {
            | Raise e eqn: Hd => Raise e
            | Ok d' eqn: Hd =>
                daily_loop end_date d' cursors' (results ++ [record]) } } }.
Proof.
  unfold date_add_days in Hd.
  destruct ((0 <? d + 1) && (d + 1 <=? MAXORDINAL)); inversion Hd.
  apply Z.leb_le in Hle. lia.
Qed.

(** [build_daily_history], lines 109-180. *)
Definition build_daily_history (http : provider) (start_date end_date : date)
  (api_key : string) : result (list daily_record) :=
  history_series <- fetch_all http start_date api_key series_map [] ;;
  let cursors := make_cursors history_series in
  daily_loop end_date start_date cursors [].

End Builder.

(* ===================================================================== *)
(** * Definitions used by the statements *)
(* ===================================================================== *)

Section Statements.

Local Open Scope Z_scope.
Local Open Scope py_scope.

(** The tenths between 5.0 and 95.0, as numbers of tenths. *)
Definition tenths : list Z := map Z.of_nat (seq 50 901).

(** A list of observations in ascending order of date. *)
Definition ascending (series : list observation) : Prop :=
  StronglySorted (fun a b => fst a <= fst b) series.

(** A list of dates, each at least the one before it. *)
Definition nondecreasing (dates : list date) : Prop :=
  StronglySorted Z.le dates.

(** An observation dated [d] or before. *)
Definition dated_by (d : date) (o : observation) : bool := fst o <=? d.

(** The value of the last observation of [series] dated [d] or before, if
    there is one: what forward filling shows on the day [d]. *)
Definition value_as_of (series : list observation) (d : date)
  : option float :=
  last (map (fun o => Some (snd o)) (filter (dated_by d) series)) None.

(** Successive calls [get_value(label, d)] for the dates of a list. *)
Fixpoint query_dates (cursors : dict cursor) (label : string)
  (dates : list date) : result (list (option float) * dict cursor) :=
  match dates with
  | [] => Ok ([], cursors)
  | d :: rest =>
      '(v, cursors') <- get_value cursors label d ;;
      '(vs, cursors'') <- query_dates cursors' label rest ;;
      Ok (v :: vs, cursors'')
  end.

(** What the fetcher keeps of one entry: nothing when the value is missing,
    is the text of a single dot or is refused by [float]. *)
Definition parsed (o : raw_observation) : option observation :=
  match raw_value o with
  | Some val =>
      if String.eqb val "." then None
      else option_map (pair (raw_date o)) (py_float val)
  | None => None
  end.

Definition kept (entries : list raw_observation) : list observation :=
  flat_map (fun o => match parsed o with Some x => [x] | None => [] end)
           entries.

Definition entries_of (data : response) : list raw_observation :=
  match observations data with
  | Some l => l
  | None => []
  end.

(** The [n] days from [d] on. *)
Fixpoint days_from (d : date) (n : nat) : list date :=
  match n with
  | O => []
  | S n' => d :: days_from (d + 1) n'
  end.

(** The labels that [build_daily_history] reads from [vals]. *)
Definition labels : list string := map snd series_map.

(** A provider without observations for any series. *)
Definition empty_provider : provider :=
  fun _ _ _ => Ok {| observations := Some [] |}.

(** A provider whose series hold a [nan] and an [inf] entry. *)
Definition special_provider : provider :=
  fun _ _ _ =>
    Ok {| observations :=
            Some [ {| raw_date := 738000; raw_value := Some "nan"%string |};
                   {| raw_date := 738001; raw_value := Some "inf"%string |} ] |}.

(** The state of a cursor over [series] that may be queried at [d]: what
    it has consumed is dated [d] or before, and it carries the value of the
    last observation consumed. *)
Definition cursor_ready (series : list observation) (c : cursor) (d : date)
  : Prop :=
  obs c = series /\
  Forall (fun o => dated_by d o = true) (firstn (idx c) series) /\
  current c = last (map (fun o => Some (snd o)) (firstn (idx c) series)) None.

(** The cursors hold every label that the loop reads. *)
Definition holds_labels {V : Type} (d : dict V) : Prop :=
  forall l, In l labels -> In l (dict_keys d).

(** Two unemployment readings, and a dictionary with a fresh cursor over
    them. *)
Definition sample_series : list observation :=
  [(738000, 4.5%float); (738031, 6.0%float)].

Definition sample_cursors : dict cursor :=
  [("unemployment"%string,
    {| obs := sample_series; idx := 0; current := None |})].

Definition sample_dates : list date :=
  [737999; 738000; 738010; 738031; 738031; 738100].

End Statements.

(* ===================================================================== *)
(** * The entry point *)
(* ===================================================================== *)

Section EntryPoint.

Local Open Scope string_scope.
Local Open Scope Z_scope.

(** How a run of [main] ends: [SystemExit] with its message, an exception
    of [build_daily_history] or of the date arithmetic left uncaught, or
    the history handed to [json.dump] for [risk_history.json] (writing the
    file is taken to succeed). *)
Inductive outcome : Type :=
| SystemExit (message : string)
| Uncaught (e : exn)
| Saved (history : list daily_record).

(** [main], lines 183-197, as a function of what it reads: the environment
    variable [FRED_API_KEY] ([None] when unset), the day [datetime.today()]
    and the provider.  [not API_KEY] holds for an unset and for an empty
    key. *)
Definition main (API_KEY : option string) (today : date) (http : provider)
  : outcome :=
  match API_KEY with
  | None => SystemExit "ERROR: FRED_API_KEY environment variable is not set"
  | Some key =>
      if String.eqb key "" then
        SystemExit "ERROR: FRED_API_KEY environment variable is not set"
      else
        match date_add_days today (-730) with
        | Raise e => Uncaught e
        | Ok start_date =>
            let end_date := today in
            match build_daily_history http start_date end_date key with
            | Raise e => Uncaught e
            | Ok history => Saved history
            end
        end
  end.

End EntryPoint.

(* ===================================================================== *)
(** * Further definitions used by the statements *)
(* ===================================================================== *)

Section FurtherStatements.

Local Open Scope string_scope.
Local Open Scope Z_scope.

(** A reading that counts: present and not NaN. *)
Definition reading (x : option float) : option float :=
  match x with
  | Some v => if is_nan v then None else Some v
  | None => None
  end.

(** Readings in the band where their term of the score adds nothing. *)
Definition calm (lo hi : float) (x : option float) : bool :=
  match x with
  | Some v => ((lo <=? v) && (v <=? hi))%float
  | None => true
  end.

Definition at_most (hi : float) (x : option float) : bool :=
  match x with
  | Some v => (v <=? hi)%float
  | None => true
  end.

Definition at_least (lo : float) (x : option float) : bool :=
  match x with
  | Some v => (lo <=? v)%float
  | None => true
  end.

(** The series fetched for a label (none when the label is missing). *)
Definition series_of (history_series : dict (list observation))
  (label : string) : list observation :=
  match dict_get history_series label with
  | Some series => series
  | None => []
  end.

(** The record of the day [d] that forward filling and scoring define. *)
Definition expected_record (history_series : dict (list observation))
  (d : date) : daily_record :=
  let v label := value_as_of (series_of history_series label) d in
  {| record_date := d;
     record_risk :=
       fst (compute_risk (v "yield_10y") (v "yield_2y") (v "unemployment")
              (v "initial_claims") (v "gdp_growth") (v "industrial_prod")
              (v "consumer_sentiment") (v "credit_spread")
              (v "housing_starts")) |}.

(** Every series of the dictionary is in ascending order of date. *)
Definition all_ascending (history_series : dict (list observation)) : Prop :=
  forall label series,
    dict_get history_series label = Some series -> ascending series.

(** Every cursor of [cursors] runs over the series of its label and may be
    queried at [d]. *)
Definition cursors_ready (history_series : dict (list observation))
  (cursors : dict cursor) (d : date) : Prop :=
  forall label c,
    dict_get cursors label = Some c ->
    exists series,
      dict_get history_series label = Some series /\
      cursor_ready series c d.


(** A provider that answers every request with the same three entries. *)
Definition sample_provider : provider :=
  fun _ _ _ =>
    Ok {| observations :=
            Some [ {| raw_date := 738002; raw_value := Some "4.1" |};
                   {| raw_date := 738001; raw_value := Some "." |};
                   {| raw_date := 738000; raw_value := Some "3.9" |} ] |}.

(** What [build_daily_history] fetches from [sample_provider]: the same two
    observations under each of the nine labels. *)
Definition sample_history : dict (list observation) :=
  map (fun item => (snd item, [(738000, 3.9%float); (738002, 4.1%float)]))
      series_map.


End FurtherStatements.

(* ===================================================================== *)
(** * The model on known values *)
(* ===================================================================== *)

Section KnownValues.

Local Open Scope string_scope.
Local Open Scope list_scope.
Local Open Scope float_scope.

(** [nearest_float] agrees with the literals of the format. *)
Example nearest_float_values :
  [nearest_float false 1 10; nearest_float false 151 10;
   nearest_float true 435 100; nearest_float false 1 3]
  = [0.1; 15.1; -4.35; 0.33333333333333331].
Proof. vm_compute. reflexivity. Qed.

(** [round] as CPython computes it: 0.25 is a tie and goes to the even
    tenth, 0.35 and 2.675 lie below the decimal they print as. *)
Example py_round_values :
  [py_round 0.25 1; py_round 0.35 1; py_round 2.675 2; py_round (-0.01) 1;
   py_round 0.15 1; py_round 12.345 1; py_round 1e300 1; py_round nan 1]
  = [0.2; 0.3; 2.67; -0.0; 0.1; 12.3; 1e300; nan].
Proof. vm_compute. reflexivity. Qed.

(** [float] on strings. *)
Example py_float_values :
  map py_float
    ["3.14"; "."; "inf"; "NaN"; " 1e3 "; "1_000.5"; "abc"; ""; "1e400";
     "0x10"; "-Infinity"; "1e"; "+.5"; "1."; "1__0"; "_1"; "-0"; "1e-2";
     "12.5E+1"; "1 2"; "infinit"]
  = [Some 3.14; None; Some infinity; Some nan; Some 1000; Some 1000.5; None;
     None; Some infinity; None; Some neg_infinity; None; Some 0.5; Some 1;
     None; None; Some (-0); Some 0.01; Some 125; None; None].
Proof. vm_compute. reflexivity. Qed.

(** The first worked example of the specification: an inverted curve with
    no other term. *)
Example compute_risk_example_40 :
  fst (compute_risk (Some 2.0) (Some 2.6) (Some 4.5) (Some 250000)
         (Some 2.5) None (Some 95) (Some 1.0) None) = 40.0.
Proof. vm_compute. reflexivity. Qed.

(** Five days around two unemployment readings given out of order, with
    one missing value: 4.5 changes nothing, 6.0 adds 8. *)
Example build_daily_history_sample :
  build_daily_history
    (fun series_id _ _ =>
       if String.eqb series_id "UNRATE" then
         Ok {| observations :=
                 Some [ {| raw_date := 738002; raw_value := Some "6.0" |};
                        {| raw_date := 738000; raw_value := Some "." |};
                        {| raw_date := 738001; raw_value := Some "4.5" |} ] |}
       else Ok {| observations := None |})
    738000 738004 "key"
  = Ok [ {| record_date := 738000; record_risk := 15.0 |};
         {| record_date := 738001; record_risk := 15.0 |};
         {| record_date := 738002; record_risk := 23.0 |};
         {| record_date := 738003; record_risk := 23.0 |};
         {| record_date := 738004; record_risk := 23.0 |} ].
Proof. vm_compute. reflexivity. Qed.

End KnownValues.

(* ===================================================================== *)
(** * Properties of the risk scorer *)
(* ===================================================================== *)

Section ScorerProperties.

Local Open Scope float_scope.

Lemma ltb_leb x y : (x <? y) = true -> (x <=? y) = true.
Proof.
  rewrite ltb_spec, leb_spec. unfold SFltb, SFleb.
  destruct (SFcompare (Prim2SF x) (Prim2SF y)) as [[]|]; congruence.
Qed.

(** The clamp of line 105 lands in [5, 95] whatever it is given, NaN and
    the infinities included. *)
Lemma clamp_range r : (5 <=? clamp r) = true /\ (clamp r <=? 95) = true.
Proof.
  unfold clamp, py_min.
  destruct (r <? 95) eqn:Hhi.
  - unfold py_max. destruct (5 <? r) eqn:Hlo.
    + split; apply ltb_leb; assumption.
    + split; reflexivity.
  - split; reflexivity.
Qed.

End ScorerProperties.

Section RoundingProperties.

Local Open Scope Z_scope.

Lemma digits2_pos_bounds m :
  2 ^ (Zpos (digits2_pos m) - 1) <= Zpos m < 2 ^ Zpos (digits2_pos m).
Proof.
  assert (step : forall d, 0 < d -> 2 ^ d = 2 * 2 ^ (d - 1)).
  { intros d Hd. rewrite <- Z.pow_succ_r by lia. f_equal. lia. }
  induction m as [m IH|m IH|]; simpl digits2_pos.
  - rewrite Pos2Z.inj_succ. change (Zpos m~1) with (2 * Zpos m + 1).
    replace (Z.succ (Zpos (digits2_pos m)) - 1)
      with (Zpos (digits2_pos m)) by lia.
    rewrite Z.pow_succ_r by lia.
    rewrite (step (Zpos (digits2_pos m))) in * by lia.
    set (p := 2 ^ _) in *. clearbody p. lia.
  - rewrite Pos2Z.inj_succ. change (Zpos m~0) with (2 * Zpos m).
    replace (Z.succ (Zpos (digits2_pos m)) - 1)
      with (Zpos (digits2_pos m)) by lia.
    rewrite Z.pow_succ_r by lia.
    rewrite (step (Zpos (digits2_pos m))) in * by lia.
    set (p := 2 ^ _) in *. clearbody p. lia.
  - simpl. lia.
Qed.

Lemma round_half_even_bounds a b lo hi :
  0 < b -> lo * b <= a <= hi * b -> lo <= round_half_even a b <= hi.
Proof.
  intros Hb [Hlo Hhi]. unfold round_half_even.
  pose proof (Z.div_eucl_eq a b ltac:(lia)) as E.
  pose proof (Z.mod_pos_bound a b Hb) as M. unfold Z.modulo in M.
  destruct (Z.div_eucl a b) as [q r].
  assert (lo <= q) by nia.
  assert (q <= hi) by nia.
  assert (q = hi -> r = 0) by nia.
  destruct (Z.compare_spec (2 * r) b); [destruct (Z.even q)| |]; lia.
Qed.

Lemma in_tenths n : 50 <= n <= 950 -> In n tenths.
Proof.
  intros H. unfold tenths. rewrite <- (Z2Nat.id n) by lia.
  apply in_map, in_seq. lia.
Qed.

(** Every tenth between 5.0 and 95.0 is a float of that interval and a
    fixed point of [round(_, 1)]. *)
Lemma nearest_tenth_range n :
  50 <= n <= 950 ->
  (5 <=? nearest_float false n 10)%float = true /\
  (nearest_float false n 10 <=? 95)%float = true /\
  py_round (nearest_float false n 10) 1 = nearest_float false n 10.
Proof.
  intros H. apply in_tenths in H.
  assert (A : forallb
                (fun n => let r := nearest_float false n 10 in
                          (5 <=? r)%float && (r <=? 95)%float
                          && PrimFloat.Leibniz.eqb (py_round r 1) r)
                tenths = true) by (vm_compute; reflexivity).
  rewrite forallb_forall in A. specialize (A n H). cbv zeta in A.
  apply andb_prop in A. destruct A as [A C].
  apply andb_prop in A. destruct A as [A B].
  apply FloatAxioms.Leibniz.eqb_spec in C. auto.
Qed.

Lemma SFleb_finite_pos m1 e1 m2 e2 :
  SFleb (S754_finite false m1 e1) (S754_finite false m2 e2) = true ->
  e1 < e2 \/ (e1 = e2 /\ Zpos m1 <= Zpos m2).
Proof.
  unfold SFleb, SFcompare.
  destruct (Z.compare_spec e1 e2) as [E|E|E]; try discriminate; [|lia].
  fold (Pos.compare m1 m2).
  destruct (Pos.compare_spec m1 m2); try discriminate; lia.
Qed.

(** Rounding a float of [5, 95] to one decimal gives a tenth of [5, 95]. *)
Lemma round_clamped c :
  (5 <=? c)%float = true -> (c <=? 95)%float = true ->
  exists n, 50 <= n <= 950 /\ py_round c 1 = nearest_float false n 10.
Proof.
  intros Hlo Hhi. rewrite leb_spec in Hlo, Hhi.
  pose proof (Prim2SF_valid c) as V.
  unfold py_round.
  replace (Prim2SF 5) with (S754_finite false 5629499534213120 (-50))
    in Hlo by (vm_compute; reflexivity).
  replace (Prim2SF 95) with (S754_finite false 6685030696878080 (-46))
    in Hhi by (vm_compute; reflexivity).
  destruct (Prim2SF c) as [s|s| |s m e]; try discriminate.
  - destruct s; discriminate.
  - destruct s; [discriminate|].
    apply SFleb_finite_pos in Hlo, Hhi.
    unfold valid_binary, bounded, canonical_mantissa, fexp, SpecFloat.emin
      in V.
    apply andb_prop in V. destruct V as [V _]. apply Z.eqb_eq in V.
    pose proof (digits2_pos_bounds m) as D.
    unfold prec, emax in V.
    assert (Hd : Zpos (digits2_pos m) = 53) by lia.
    rewrite Hd in D. change (2 ^ (53 - 1)) with 4503599627370496 in D.
    change (2 ^ 53) with 9007199254740992 in D.
    change (10 ^ Z.of_nat 1) with 10.
    eexists. split; [|reflexivity].
    assert (Hc : e = -50 \/ e = -49 \/ e = -48 \/ e = -47 \/ e = -46) by lia.
    destruct Hc as [->|[->|[->|[->| ->]]]];
      match goal with
      | |- context [0 <=? ?k] => change (0 <=? k) with false
      end;
      cbv iota;
      match goal with
      | |- context [2 ^ ?k] =>
          let v := eval vm_compute in (2 ^ k) in change (2 ^ k) with v
      end;
      apply round_half_even_bounds; lia.
Qed.

End RoundingProperties.

Section ScorerClaims.

Local Open Scope float_scope.

(** C1: for every combination of present or absent inputs, the risk score
    that [compute_risk] returns lies in [5.0, 95.0] and has at most one
    decimal: it is the float nearest to n/10 for an integer n, and rounding
    it to one decimal again leaves it unchanged. *)
Theorem compute_risk_bounded_one_decimal
  (yield_10y yield_2y unemployment initial_claims gdp_growth industrial_prod
   consumer_sentiment credit_spread housing_starts : option float) :
  let risk := fst (compute_risk yield_10y yield_2y unemployment
                     initial_claims gdp_growth industrial_prod
                     consumer_sentiment credit_spread housing_starts) in
  (5.0 <=? risk) = true /\ (risk <=? 95.0) = true /\
  (exists n : Z, (50 <= n <= 950)%Z /\ risk = nearest_float false n 10) /\
  py_round risk 1 = risk.
Proof.
  unfold compute_risk. cbv zeta. simpl fst.
  destruct (clamp_range (raw_risk (yield_curve yield_10y yield_2y)
                           unemployment initial_claims gdp_growth
                           consumer_sentiment credit_spread)) as [Hlo Hhi].
  destruct (round_clamped _ Hlo Hhi) as [n [Hn E]].
  rewrite E. destruct (nearest_tenth_range n Hn) as [A [B C]].
  repeat split; try assumption. exists n. split; [assumption|reflexivity].
Qed.

(** C4: with the nine inputs absent the risk score is exactly the base
    score 15.0, and no yield-curve value is returned. *)
Theorem compute_risk_all_absent :
  compute_risk None None None None None None None None None = (15.0, None).
Proof. vm_compute. reflexivity. Qed.

(** C5: at a spread of exactly 0.5 none of the three tests of the
    yield-curve term holds and the term leaves the running score unchanged;
    at exactly -0.5 the test [yc < -0.5] fails, the test [yc < 0] holds and
    the term adds |-0.5| * 30 = 15.  The two calls of [compute_risk] show
    both on whole scores. *)
Theorem yield_curve_term_boundaries (risk : float) :
  ((0.5 <? -0.5) = false /\ (0.5 <? 0) = false /\ (0.5 <? 0.5) = false /\
   yield_curve_term (Some 0.5) risk = risk) /\
  ((-0.5 <? -0.5) = false /\ (-0.5 <? 0) = true /\
   abs (-0.5) * 30 = 15 /\
   yield_curve_term (Some (-0.5)) risk = risk + 15) /\
  compute_risk (Some 2.5) (Some 2.0) None None None None None None None
    = (15.0, Some 0.5) /\
  compute_risk (Some 2.0) (Some 2.5) None None None None None None None
    = (30.0, Some (-0.5)).
Proof.
  repeat split; vm_compute; reflexivity.
Qed.

(** C6: the worked example of the specification scores 49.0. *)
Theorem compute_risk_example_49 :
  compute_risk (Some 3.0) (Some 1.0) (Some 6.0) (Some 320000) (Some (-1))
    None (Some 60) (Some 3.0) None = (49.0, Some 2.0).
Proof. vm_compute. reflexivity. Qed.

(** C7: two calls that agree on the seven scored indicators return the same
    pair, whatever industrial production and housing starts are. *)
Theorem compute_risk_ignores_reserved_inputs
  (yield_10y yield_2y unemployment initial_claims gdp_growth
   consumer_sentiment credit_spread : option float)
  (industrial_prod housing_starts industrial_prod' housing_starts'
   : option float) :
  compute_risk yield_10y yield_2y unemployment initial_claims gdp_growth
    industrial_prod consumer_sentiment credit_spread housing_starts
  = compute_risk yield_10y yield_2y unemployment initial_claims gdp_growth
      industrial_prod' consumer_sentiment credit_spread housing_starts'.
Proof. reflexivity. Qed.

End ScorerClaims.

(* ===================================================================== *)
(** * Properties of dictionaries *)
(* ===================================================================== *)

Section DictProperties.

Context {V : Type}.
Implicit Types (d : dict V) (k : string) (v : V).

Lemma dict_get_set_same d k v : dict_get (dict_set d k v) k = Some v.
Proof.
  induction d as [|[k' v'] d IH]; simpl.
  - rewrite String.eqb_refl. reflexivity.
  - destruct (String.eqb k' k) eqn:E; simpl; rewrite E; auto.
Qed.

Lemma dict_get_set_other d k k' v :
  k <> k' -> dict_get (dict_set d k v) k' = dict_get d k'.
Proof.
  intros Hne. induction d as [|[k0 v0] d IH]; simpl.
  - destruct (String.eqb_spec k k'); congruence.
  - destruct (String.eqb_spec k0 k) as [->|Hk]; simpl.
    + destruct (String.eqb_spec k k'); congruence.
    + destruct (String.eqb_spec k0 k'); auto.
Qed.

Lemma dict_set_set d k v v' : dict_set (dict_set d k v) k v' = dict_set d k v'.
Proof.
  induction d as [|[k0 v0] d IH]; simpl.
  - rewrite String.eqb_refl. reflexivity.
  - destruct (String.eqb k0 k) eqn:E; simpl; rewrite E; congruence.
Qed.

(** Assigning to a key that is present leaves the keys as they are. *)
Lemma dict_keys_set_present d k v :
  dict_get d k <> None -> dict_keys (dict_set d k v) = dict_keys d.
Proof.
  induction d as [|[k0 v0] d IH]; simpl; [congruence|].
  destruct (String.eqb k0 k); simpl; intros H; [reflexivity|].
  f_equal. apply IH, H.
Qed.

Lemma dict_get_in_keys d k : dict_get d k <> None <-> In k (dict_keys d).
Proof.
  induction d as [|[k0 v0] d IH]; simpl; [tauto|].
  destruct (String.eqb_spec k0 k) as [->|Hk].
  - split; [auto|congruence].
  - rewrite IH. split; [auto|intros [?|?]; congruence || auto].
Qed.

Lemma dict_get_set_not_none d k k' v :
  k = k' \/ dict_get d k' <> None -> dict_get (dict_set d k v) k' <> None.
Proof.
  destruct (String.eqb_spec k k') as [->|Hk].
  - intros _. rewrite dict_get_set_same. discriminate.
  - intros [?|H]; [congruence|]. rewrite dict_get_set_other; assumption.
Qed.

End DictProperties.

(* ===================================================================== *)
(** * Properties of the cursors *)
(* ===================================================================== *)

Section CursorProperties.

Local Open Scope Z_scope.
Local Open Scope py_scope.

Lemma last_cons {A : Type} (a : A) (l : list A) (d : A) :
  last (a :: l) d = last l a.
Proof.
  revert a d. induction l as [|b l IH]; intros a d; [reflexivity|].
  change (last (a :: b :: l) d) with (last (b :: l) d).
  rewrite (IH b d), (IH b a). reflexivity.
Qed.

Lemma last_app_default {A : Type} (l1 l2 : list A) (d : A) :
  last (l1 ++ l2) d = last l2 (last l1 d).
Proof.
  revert d. induction l1 as [|a l1 IH]; intros d; [reflexivity|].
  rewrite <- app_comm_cons, !last_cons. apply IH.
Qed.

(** In an ascending series behind an observation dated after [d], nothing
    is dated [d] or before. *)
Lemma filter_after (rest : list observation) (d0 : date) (v : float) d :
  ascending ((d0, v) :: rest) -> d < d0 ->
  filter (dated_by d) ((d0, v) :: rest) = [].
Proof.
  intros Hs Hlt. apply StronglySorted_inv in Hs. destruct Hs as [_ Hall].
  simpl in Hall. simpl. change (dated_by d (d0, v)) with (d0 <=? d).
  destruct (Z.leb_spec d0 d); [lia|].
  induction rest as [|o rest IH]; [reflexivity|].
  inversion Hall as [|? ? Ho Hrest]; subst. simpl.
  change (dated_by d o) with (fst o <=? d).
  destruct (Z.leb_spec (fst o) d); [lia|]. apply IH, Hrest.
Qed.

(** The loop of [get_value] consumes the observations dated [d] or before
    and carries the value of the last one. *)
Lemma advance_filter (rest : list observation) d i cur :
  ascending rest ->
  advance rest d i cur =
    ((i + List.length (filter (dated_by d) rest))%nat,
     last (map (fun o => Some (snd o)) (filter (dated_by d) rest)) cur).
Proof.
  revert i cur. induction rest as [|[d0 v] rest IH]; intros i cur Hs.
  - simpl. f_equal. lia.
  - destruct (Z.leb_spec d0 d) as [Hle|Hgt].
    + apply Z.leb_le in Hle. simpl.
      change (dated_by d (d0, v)) with (d0 <=? d). rewrite Hle. simpl map.
      rewrite last_cons, IH by (apply StronglySorted_inv in Hs; tauto).
      simpl List.length. f_equal. lia.
    + rewrite (filter_after rest d0 v d Hs Hgt). simpl.
      destruct (Z.leb_spec d0 d); [lia|]. f_equal. lia.
Qed.

(** In an ascending series the observations dated [d] or before form a
    prefix. *)
Lemma filter_prefix (series : list observation) d :
  ascending series ->
  firstn (List.length (filter (dated_by d) series)) series
  = filter (dated_by d) series.
Proof.
  induction series as [|[d0 v] rest IH]; intros Hs; [reflexivity|].
  destruct (Z.leb_spec d0 d) as [Hle|Hgt].
  - apply Z.leb_le in Hle. simpl.
    change (dated_by d (d0, v)) with (d0 <=? d). rewrite Hle. simpl. f_equal.
    apply IH. apply StronglySorted_inv in Hs. tauto.
  - rewrite (filter_after rest d0 v d Hs Hgt). reflexivity.
Qed.

Lemma ascending_skipn (series : list observation) n :
  ascending series -> ascending (skipn n series).
Proof.
  revert series. induction n as [|n IH]; intros [|o rest] Hs; simpl; auto.
  apply IH. apply StronglySorted_inv in Hs. tauto.
Qed.

Lemma filter_all {A : Type} (f : A -> bool) (l : list A) :
  Forall (fun x => f x = true) l -> filter f l = l.
Proof.
  induction 1 as [|x l Hx _ IH]; simpl; [reflexivity|].
  rewrite Hx, IH. reflexivity.
Qed.

Lemma new_cursor_ready series d :
  cursor_ready series {| obs := series; idx := 0; current := None |} d.
Proof. repeat split. constructor. Qed.

Lemma cursor_value_as_of series c d :
  ascending series -> cursor_ready series c d ->
  fst (cursor_value c d) = value_as_of series d /\
  forall d', d <= d' -> cursor_ready series (snd (cursor_value c d)) d'.
Proof.
  intros Hs (Hobs & Hpre & Hcur). unfold cursor_value.
  rewrite Hobs, (advance_filter _ d _ _ (ascending_skipn series (idx c) Hs)).
  simpl fst. simpl snd.
  set (keep := dated_by d) in *.
  assert (Hsplit : filter keep series
                   = firstn (idx c) series ++ filter keep (skipn (idx c) series)).
  { rewrite <- (firstn_skipn (idx c) series) at 1.
    rewrite filter_app, (filter_all keep _ Hpre). reflexivity. }
  assert (Hval : last (map (fun o => Some (snd o))
                         (filter keep (skipn (idx c) series))) (current c)
                 = value_as_of series d).
  { unfold value_as_of. fold keep. rewrite Hsplit, map_app, last_app_default.
    rewrite Hcur. reflexivity. }
  split; [exact Hval|].
  intros d' Hd'. unfold cursor_ready. simpl obs. simpl idx. simpl current.
  assert (Hlen : (idx c <= List.length series)%nat \/ (List.length series < idx c)%nat)
    by lia.
  assert (Hidx : firstn (idx c + List.length (filter keep (skipn (idx c) series)))
                   series = filter keep series).
  { destruct Hlen as [Hlen|Hlen].
    - pose proof (filter_prefix series d Hs) as P. fold keep in P.
      rewrite <- P. f_equal.
      rewrite Hsplit, length_app, length_firstn. lia.
    - rewrite skipn_all2 in * by lia. simpl in *. rewrite app_nil_r in Hsplit.
      rewrite Hsplit. f_equal. lia. }
  rewrite Hidx. repeat split.
  - apply Forall_forall. intros o Ho. apply filter_In in Ho.
    destruct Ho as [_ Ho]. unfold keep in Ho.
    apply Z.leb_le in Ho. apply Z.leb_le. lia.
  - rewrite Hval. reflexivity.
Qed.

(** [get_value] on the dictionary is [cursor_value] on the cursor of the
    label, written back under the same key. *)
Lemma get_value_cursor cursors label c d :
  dict_get cursors label = Some c ->
  get_value cursors label d
  = Ok (fst (cursor_value c d),
        dict_set cursors label (snd (cursor_value c d))).
Proof.
  intros H. unfold get_value. rewrite H.
  destruct (cursor_value c d). reflexivity.
Qed.

Lemma query_dates_as_of series label dates :
  ascending series -> nondecreasing dates ->
  forall cursors c,
    dict_get cursors label = Some c ->
    (forall d, In d dates -> cursor_ready series c d) ->
    exists cursors',
      query_dates cursors label dates
      = Ok (map (value_as_of series) dates, cursors').
Proof.
  intros Hs. induction 1 as [|d dates Hsorted IH Hall];
    intros cursors c Hget Hready.
  - exists cursors. reflexivity.
  - simpl. rewrite (get_value_cursor _ _ _ _ Hget). simpl.
    destruct (cursor_value_as_of series c d Hs (Hready d (or_introl eq_refl)))
      as [Hv Hnext].
    destruct (IH (dict_set cursors label (snd (cursor_value c d)))
                (snd (cursor_value c d))) as [cursors' E].
    + apply dict_get_set_same.
    + intros d' Hd'. apply Hnext. rewrite Forall_forall in Hall. auto.
    + exists cursors'. rewrite E. simpl. rewrite Hv. reflexivity.
Qed.

Lemma value_as_of_before_first series d :
  ascending series ->
  (forall o, hd_error series = Some o -> d < fst o) ->
  value_as_of series d = None.
Proof.
  intros Hs Hfirst. unfold value_as_of. destruct series as [|[d0 v] rest].
  - reflexivity.
  - rewrite (filter_after rest d0 v d Hs); [reflexivity|].
    apply (Hfirst (d0, v)). reflexivity.
Qed.

Lemma filter_nil_forall {A : Type} (f : A -> bool) (l : list A) :
  filter f l = [] -> Forall (fun y => f y = false) l.
Proof.
  induction l as [|y l IH]; simpl; [constructor|].
  destruct (f y) eqn:E; [discriminate|]. auto.
Qed.

Lemma filter_last_split {A : Type} (f : A -> bool) (l : list A) :
  forall l' x,
    filter f l = l' ++ [x] ->
    exists before after,
      l = before ++ x :: after /\ f x = true /\
      Forall (fun y => f y = false) after.
Proof.
  induction l as [|y l IH]; intros l' x H; simpl in H.
  - destruct l'; discriminate.
  - destruct (f y) eqn:E.
    + destruct l' as [|z l'].
      * simpl in H. inversion H as [[Hy Hnil]]. subst y.
        exists [], l. repeat split; auto using filter_nil_forall.
      * simpl in H. inversion H as [[Hy Hrest]]. subst z.
        destruct (IH l' x Hrest) as (b & a & -> & ? & ?).
        exists (y :: b), a. auto.
    + destruct (IH l' x H) as (b & a & -> & ? & ?).
      exists (y :: b), a. auto.
Qed.

(** [value_as_of] names the observation that the specification describes:
    the series splits around an observation dated [d] or before whose
    successors are all dated after [d]. *)
Lemma value_as_of_latest series d v :
  value_as_of series d = Some v ->
  exists before d0 after,
    series = before ++ (d0, v) :: after /\ d0 <= d /\
    Forall (fun o => d < fst o) after.
Proof.
  unfold value_as_of. intros H.
  destruct (filter (dated_by d) series) as [|o l] eqn:E using rev_ind;
    [discriminate|].
  clear IHl. rewrite map_app, last_app_default in H. simpl in H.
  inversion H; subst v. destruct o as [d0 v]. simpl.
  destruct (filter_last_split _ _ _ _ E) as (b & a & -> & Hd & Ha).
  exists b, d0, a. repeat split.
  - apply Z.leb_le. exact Hd.
  - eapply Forall_impl; [|exact Ha]. unfold dated_by. intros o Ho.
    apply Z.leb_gt. exact Ho.
Qed.

End CursorProperties.

Section CursorClaims.

Local Open Scope string_scope.
Local Open Scope Z_scope.

(** Where the loop of [get_value] stops, it stops again. *)
Lemma advance_fixed (rest : list observation) d :
  forall i cur i' cur',
    advance rest d i cur = (i', cur') ->
    (i <= i')%nat /\ advance (skipn (i' - i) rest) d i' cur' = (i', cur').
Proof.
  induction rest as [|[d0 v] rest IH]; intros i cur i' cur' H.
  - simpl in H. inversion H; subst. rewrite skipn_nil. split; [lia|reflexivity].
  - simpl in H. destruct (d0 <=? d) eqn:E.
    + destruct (IH _ _ _ _ H) as [Hle Hstop]. split; [lia|].
      replace (i' - i)%nat with (S (i' - S i)) by lia. exact Hstop.
    + inversion H; subst. rewrite Nat.sub_diag. simpl. rewrite E.
      split; [lia|reflexivity].
Qed.

Lemma cursor_value_idempotent c d v c' :
  cursor_value c d = (v, c') -> cursor_value c' d = (v, c').
Proof.
  unfold cursor_value.
  destruct (advance (skipn (idx c) (obs c)) d (idx c) (current c))
    as [i' cur'] eqn:E.
  intros H. inversion H; subst. simpl.
  destruct (advance_fixed _ _ _ _ _ _ E) as [Hle Hstop].
  rewrite skipn_skipn in Hstop.
  replace (i' - idx c + idx c)%nat with i' in Hstop by lia.
  rewrite Hstop. reflexivity.
Qed.

(** C3: on a fresh cursor over an ascending series, queried at
    non-decreasing dates, every call of [get_value] returns the value of
    the last observation dated on or before the queried date, or [None]
    when there is none; so it returns [None] at every date when the series
    is empty, and at every date before the first observation's. *)
Theorem get_value_forward_fill (cursors : dict cursor) (label : string)
  (series : list observation) (dates : list date) :
  dict_get cursors label
    = Some {| obs := series; idx := 0; current := None |} ->
  ascending series ->
  nondecreasing dates ->
  (exists cursors',
      query_dates cursors label dates
      = Ok (map (value_as_of series) dates, cursors')) /\
  (series = [] ->
   map (value_as_of series) dates = map (fun _ => None) dates) /\
  (forall d, In d dates ->
     (forall o, hd_error series = Some o -> d < fst o) ->
     value_as_of series d = None).
Proof.
  intros Hget Hs Hd. split; [|split].
  - eapply query_dates_as_of; eauto.
    intros d _. apply new_cursor_ready.
  - intros ->. apply map_ext. reflexivity.
  - intros d _ Hfirst. apply value_as_of_before_first; assumption.
Qed.

(** C8: a second call of [get_value] with the same label and date returns
    the same value as the first and leaves the cursors as the first call
    left them. *)
Theorem get_value_idempotent (cursors : dict cursor) (label : string)
  (d : date) (v : option float) (cursors' : dict cursor) :
  get_value cursors label d = Ok (v, cursors') ->
  get_value cursors' label d = Ok (v, cursors').
Proof.
  unfold get_value. destruct (dict_get cursors label) as [c|] eqn:Hget;
    [|discriminate].
  destruct (cursor_value c d) as [v0 c'] eqn:Hc.
  intros H. inversion H; subst.
  rewrite dict_get_set_same, (cursor_value_idempotent _ _ _ _ Hc).
  rewrite dict_set_set. reflexivity.
Qed.

End CursorClaims.

(* ===================================================================== *)
(** * Properties of the series fetcher *)
(* ===================================================================== *)

Section SortProperties.

Local Open Scope Z_scope.

Context {A : Type} (key : A -> Z).

Let by_key (a b : A) : Prop := key a <= key b.

Lemma insert_by_key_perm x l : Permutation (x :: l) (insert_by_key key x l).
Proof.
  induction l as [|y t IH]; simpl; [reflexivity|].
  destruct (key x <=? key y); [reflexivity|].
  rewrite perm_swap. apply perm_skip, IH.
Qed.

Lemma insert_by_key_sorted x l :
  StronglySorted by_key l -> StronglySorted by_key (insert_by_key key x l).
Proof.
  induction 1 as [|y t Hs IH Hall]; simpl.
  - repeat constructor.
  - destruct (Z.leb_spec (key x) (key y)) as [Hle|Hgt].
    + constructor; [constructor; assumption|].
      constructor; [exact Hle|].
      eapply Forall_impl; [|exact Hall]. unfold by_key. intros; lia.
    + constructor; [exact IH|].
      eapply Permutation_Forall; [apply insert_by_key_perm|].
      constructor; [unfold by_key; lia|exact Hall].
Qed.

Lemma sort_by_key_perm l : Permutation l (sort_by_key key l).
Proof.
  induction l as [|x l IH]; simpl; [reflexivity|].
  etransitivity; [apply perm_skip, IH|apply insert_by_key_perm].
Qed.

Lemma sort_by_key_sorted l : StronglySorted by_key (sort_by_key key l).
Proof.
  induction l as [|x l IH]; simpl; [constructor|].
  apply insert_by_key_sorted, IH.
Qed.

End SortProperties.

Section FetcherClaims.

Local Open Scope string_scope.
Local Open Scope list_scope.
Local Open Scope Z_scope.

(** The loop of lines 27-36 appends what [parsed] keeps of each entry. *)
Lemma fold_keep_observation entries :
  forall acc, fold_left keep_observation entries acc = acc ++ kept entries.
Proof.
  induction entries as [|o entries IH]; intros acc; simpl.
  - rewrite app_nil_r. reflexivity.
  - rewrite IH. unfold keep_observation, parsed.
    destruct (raw_value o) as [val|]; [|reflexivity].
    destruct (String.eqb val "."); [reflexivity|].
    destruct (py_float val); simpl; [|reflexivity].
    rewrite <- app_assoc. reflexivity.
Qed.

Lemma parsed_some o d v :
  parsed o = Some (d, v) <->
  raw_date o = d /\
  exists val, raw_value o = Some val /\ val <> "." /\ py_float val = Some v.
Proof.
  unfold parsed. destruct (raw_value o) as [val|].
  - destruct (String.eqb_spec val ".") as [->|Hne].
    + split; [discriminate|]. intros (_ & val & H & Hne & _).
      inversion H; subst. congruence.
    + destruct (py_float val) as [x|] eqn:E; simpl.
      * split.
        -- intros H. inversion H; subst. split; [reflexivity|].
           exists val. auto.
        -- intros (<- & val' & H & _ & Hv). inversion H; subst.
           congruence.
      * split; [discriminate|]. intros (_ & val' & H & _ & Hv).
        inversion H; subst. congruence.
  - split; [discriminate|]. intros (_ & val & H & _). discriminate.
Qed.

(** C9, as the code has it: when the provider answers, the list returned is
    in ascending order of date and holds, once each, the observations whose
    raw value is present, is not the text of a single dot and is accepted
    by [float]; the entries whose value is missing, is the dot or is
    refused by [float] are dropped.  ([float] accepts the spellings of
    infinity and NaN, so nothing is said about finiteness.) *)
Theorem fetch_series_history_ascending_parsed (http : provider)
  (series_id : string) (start_date : date) (api_key : string)
  (data : response) :
  http series_id start_date api_key = Ok data ->
  exists l,
    fetch_series_history http series_id start_date api_key = Ok l /\
    ascending l /\
    Permutation (kept (entries_of data)) l /\
    forall d v,
      In (d, v) l <->
      exists o val,
        In o (entries_of data) /\ raw_date o = d /\
        raw_value o = Some val /\ val <> "." /\ py_float val = Some v.
Proof.
  intros Hdata. unfold fetch_series_history. rewrite Hdata. simpl.
  fold (entries_of data). rewrite fold_keep_observation. simpl.
  eexists. split; [reflexivity|]. split; [|split].
  - apply sort_by_key_sorted.
  - apply sort_by_key_perm.
  - intros d v. split.
    + intros Hin.
      apply (Permutation_in _ (Permutation_sym (sort_by_key_perm fst _)))
        in Hin.
      apply in_flat_map in Hin. destruct Hin as (o & Ho & Hin).
      destruct (parsed o) as [x|] eqn:E; [|contradiction].
      destruct Hin as [->|[]]. apply parsed_some in E.
      destruct E as (Hd & val & Hv & Hne & Hf). exists o, val. auto.
    + intros (o & val & Ho & Hd & Hv & Hne & Hf).
      apply (Permutation_in _ (sort_by_key_perm fst _)).
      apply in_flat_map. exists o. split; [exact Ho|].
      assert (E : parsed o = Some (d, v)).
      { apply parsed_some. split; [exact Hd|]. exists val. auto. }
      rewrite E. left. reflexivity.
Qed.

(** The statement above at a provider that answers with two entries out of
    order, one of them a dot. *)
Lemma fetch_series_history_ascending_parsed_witness :
  exists l,
    fetch_series_history
      (fun _ _ _ =>
         Ok {| observations :=
                 Some [ {| raw_date := 738002; raw_value := Some "4.1" |};
                        {| raw_date := 738001; raw_value := Some "." |};
                        {| raw_date := 738000; raw_value := Some "3.9" |} ] |})
      "UNRATE" 738000 "key" = Ok l /\
    ascending l /\
    Permutation
      (kept [ {| raw_date := 738002; raw_value := Some "4.1" |};
              {| raw_date := 738001; raw_value := Some "." |};
              {| raw_date := 738000; raw_value := Some "3.9" |} ]) l /\
    forall d v,
      In (d, v) l <->
      exists o val,
        In o [ {| raw_date := 738002; raw_value := Some "4.1" |};
               {| raw_date := 738001; raw_value := Some "." |};
               {| raw_date := 738000; raw_value := Some "3.9" |} ] /\
        raw_date o = d /\
        raw_value o = Some val /\ val <> "." /\ py_float val = Some v.
Proof.
  apply (fetch_series_history_ascending_parsed
           (fun _ _ _ =>
              Ok {| observations :=
                      Some [ {| raw_date := 738002; raw_value := Some "4.1" |};
                             {| raw_date := 738001; raw_value := Some "." |};
                             {| raw_date := 738000; raw_value := Some "3.9" |} ] |})
           "UNRATE" 738000 "key" _ eq_refl).
Defined.

(** C9 as stated fails: [float] accepts the texts [nan] and [inf], so a
    response that holds them yields observations that are not finite. *)
Lemma fetch_series_history_not_finite :
  ~ (forall (http : provider) series_id start_date api_key l,
       fetch_series_history http series_id start_date api_key = Ok l ->
       ascending l /\ Forall (fun o => finite (snd o) = true) l).
Proof.
  intros H.
  assert (E : fetch_series_history special_provider "DGS10" 738000 "key"
              = Ok [(738000, nan); (738001, infinity)])
    by (vm_compute; reflexivity).
  destruct (H _ _ _ _ _ E) as [_ Hfin].
  inversion Hfin as [|? ? Hnan _]. vm_compute in Hnan. discriminate.
Qed.

End FetcherClaims.

(* ===================================================================== *)
(** * Properties of the history builder *)
(* ===================================================================== *)

Section BuilderProperties.

Local Open Scope string_scope.
Local Open Scope list_scope.
Local Open Scope Z_scope.

(** The loop of [build_daily_history], one iteration at a time. *)
Lemma daily_loop_step end_date d cursors results :
  daily_loop end_date d cursors results =
  if d <=? end_date then
    match score_day cursors d with
    | Raise e => Raise e
    | Ok (record, cursors') =>
        match date_add_days d 1 with
        | Raise e => Raise e
        | Ok d' => daily_loop end_date d' cursors' (results ++ [record])
        end
    end
  else Ok results.
Proof.
  funelim (daily_loop end_date d cursors results);
    rewrite Hle;
    try match goal with H : score_day _ _ = _ |- _ => rewrite H end;
    try match goal with H : date_add_days _ _ = _ |- _ => rewrite H end;
    reflexivity.
Qed.

Lemma get_value_ok cursors label d :
  In label (dict_keys cursors) ->
  exists v cursors',
    get_value cursors label d = Ok (v, cursors') /\
    dict_keys cursors' = dict_keys cursors.
Proof.
  intros Hin. apply dict_get_in_keys in Hin. unfold get_value.
  destruct (dict_get cursors label) as [c|] eqn:E; [|congruence].
  destruct (cursor_value c d) as [v c']. exists v, (dict_set cursors label c').
  split; [reflexivity|]. apply dict_keys_set_present. congruence.
Qed.

Lemma query_all_ok d ls :
  forall cursors vals,
    (forall l, In l ls -> In l (dict_keys cursors)) ->
    exists vals' cursors',
      query_all ls cursors d vals = Ok (vals', cursors') /\
      dict_keys cursors' = dict_keys cursors /\
      forall l, In l ls \/ dict_get vals l <> None ->
                dict_get vals' l <> None.
Proof.
  induction ls as [|label ls IH]; intros cursors vals Hin.
  - exists vals, cursors. simpl. repeat split. intros l [[]|H]. exact H.
  - destruct (get_value_ok cursors label d (Hin label (or_introl eq_refl)))
      as (v & cs1 & Hget & Hkeys).
    destruct (IH cs1 (dict_set vals label v)) as (vals' & cs2 & Hq & Hk & Hv).
    + intros l Hl. rewrite Hkeys. apply Hin. right. exact Hl.
    + exists vals', cs2. simpl. rewrite Hget. simpl. rewrite Hq.
      split; [reflexivity|]. split; [congruence|].
      intros l [[->|Hl]|Hl].
      * apply Hv. right. apply dict_get_set_not_none. left. reflexivity.
      * apply Hv. left. exact Hl.
      * apply Hv. right. apply dict_get_set_not_none. right. exact Hl.
Qed.

Lemma dict_item_ok {V : Type} (d : dict V) k :
  dict_get d k <> None -> exists v, dict_item d k = Ok v.
Proof.
  unfold dict_item. destruct (dict_get d k) as [v|]; [|congruence].
  intros _. exists v. reflexivity.
Qed.

(** With every label among the cursors, an iteration raises nothing and
    yields the record of the day. *)
Lemma score_day_ok cursors d :
  holds_labels cursors ->
  exists record cursors',
    score_day cursors d = Ok (record, cursors') /\
    record_date record = d /\
    dict_keys cursors' = dict_keys cursors.
Proof.
  intros Hl. unfold score_day.
  destruct (query_all_ok d (dict_keys cursors) cursors [] (fun _ H => H))
    as (vals & cs & Hq & Hk & Hv).
  rewrite Hq. simpl.
  assert (Hitem : forall l, In l labels -> exists v, dict_item vals l = Ok v).
  { intros l Hin. apply dict_item_ok, Hv. left. apply Hl, Hin. }
  destruct (Hitem "yield_10y") as [v1 ->]; [simpl; tauto|].
  destruct (Hitem "yield_2y") as [v2 ->]; [simpl; tauto|].
  destruct (Hitem "unemployment") as [v3 ->]; [simpl; tauto|].
  destruct (Hitem "initial_claims") as [v4 ->]; [simpl; tauto|].
  destruct (Hitem "gdp_growth") as [v5 ->]; [simpl; tauto|].
  destruct (Hitem "industrial_prod") as [v6 ->]; [simpl; tauto|].
  destruct (Hitem "consumer_sentiment") as [v7 ->]; [simpl; tauto|].
  destruct (Hitem "credit_spread") as [v8 ->]; [simpl; tauto|].
  destruct (Hitem "housing_starts") as [v9 ->]; [simpl; tauto|].
  simpl. destruct (compute_risk v1 v2 v3 v4 v5 v6 v7 v8 v9) as [risk yc].
  eexists _, cs. split; [reflexivity|]. split; [reflexivity|exact Hk].
Qed.

(** Short of [date.max] the loop yields one record for each day from [d]
    to [end_date], after the results it starts with. *)
Lemma daily_loop_complete end_date :
  end_date < MAXORDINAL ->
  forall n d cursors results,
    holds_labels cursors ->
    1 <= d ->
    Z.of_nat n = end_date + 1 - d ->
    exists records,
      daily_loop end_date d cursors results = Ok (results ++ records) /\
      map record_date records = days_from d n.
Proof.
  intros Hmax. induction n as [|n IH]; intros d cursors results Hl Hd Hn.
  - exists []. rewrite daily_loop_step.
    destruct (Z.leb_spec d end_date); [lia|].
    rewrite app_nil_r. split; reflexivity.
  - rewrite daily_loop_step.
    destruct (Z.leb_spec d end_date); [|lia].
    destruct (score_day_ok cursors d Hl) as (r & cs & Hs & Hr & Hk).
    rewrite Hs. unfold date_add_days.
    destruct (Z.ltb_spec 0 (d + 1)); [|lia].
    destruct (Z.leb_spec (d + 1) MAXORDINAL); [|lia]. simpl.
    destruct (IH (d + 1) cs (results ++ [r])) as (records & Hloop & Hdates).
    + intros l Hin. rewrite Hk. apply Hl, Hin.
    + lia.
    + lia.
    + exists (r :: records). rewrite Hloop, <- app_assoc. simpl.
      rewrite Hr, Hdates. split; reflexivity.
Qed.

Lemma dict_keys_set_incl {V : Type} (d : dict V) k v l :
  l = k \/ In l (dict_keys d) -> In l (dict_keys (dict_set d k v)).
Proof.
  intros H. apply dict_get_in_keys, dict_get_set_not_none.
  destruct H as [->|H]; [left; reflexivity|right].
  apply dict_get_in_keys, H.
Qed.

Lemma fetch_all_keys http start_date api_key items :
  forall acc history_series,
    fetch_all http start_date api_key items acc = Ok history_series ->
    forall l, In l (map snd items) \/ In l (dict_keys acc) ->
              In l (dict_keys history_series).
Proof.
  induction items as [|[fred_id label] items IH];
    intros acc hs H l Hin; simpl in H.
  - inversion H; subst. destruct Hin as [[]|Hin]. exact Hin.
  - destruct (fetch_series_history http fred_id start_date api_key)
      as [o|e]; simpl in H; [|discriminate].
    apply (IH _ _ H). simpl in Hin. destruct Hin as [[->|Hin]|Hin].
    + right. apply dict_keys_set_incl. left. reflexivity.
    + left. exact Hin.
    + right. apply dict_keys_set_incl. right. exact Hin.
Qed.

Lemma make_cursors_keys (history_series : dict (list observation)) l :
  In l (dict_keys history_series) ->
  In l (dict_keys (make_cursors history_series)).
Proof.
  unfold make_cursors.
  assert (G : forall (acc : dict cursor),
             In l (dict_keys history_series) \/ In l (dict_keys acc) ->
             In l (dict_keys
                     (fold_left
                        (fun cursors item =>
                           dict_set cursors (fst item)
                             {| obs := snd item; idx := 0; current := None |})
                        history_series acc))).
  { induction history_series as [|[k o] hs IH]; intros acc H; simpl.
    - destruct H as [[]|H]. exact H.
    - apply IH. simpl in H. destruct H as [[->|H]|H].
      + right. apply dict_keys_set_incl. left. reflexivity.
      + left. exact H.
      + right. apply dict_keys_set_incl. right. exact H. }
  intros H. apply G. left. exact H.
Qed.

(** When every series is retrieved and [end_date] is short of [date.max],
    [build_daily_history] returns one record for each day of the range, in
    order. *)
Lemma build_daily_history_complete http start_date end_date api_key
  history_series :
  fetch_all http start_date api_key series_map [] = Ok history_series ->
  1 <= start_date <= end_date -> end_date < MAXORDINAL ->
  exists records,
    build_daily_history http start_date end_date api_key = Ok records /\
    Z.of_nat (List.length records) = end_date - start_date + 1 /\
    map record_date records
    = days_from start_date (Z.to_nat (end_date - start_date + 1)).
Proof.
  intros Hf Hrange Hmax. unfold build_daily_history. rewrite Hf. simpl.
  destruct (daily_loop_complete end_date Hmax
              (Z.to_nat (end_date - start_date + 1)) start_date
              (make_cursors history_series) [])
    as (records & Hloop & Hdates).
  - intros l Hin. apply make_cursors_keys.
    apply (fetch_all_keys _ _ _ _ _ _ Hf). left. exact Hin.
  - lia.
  - lia.
  - exists records. simpl in Hloop. split; [exact Hloop|].
    split; [|exact Hdates].
    rewrite <- (length_map record_date), Hdates.
    assert (L : forall n d, List.length (days_from d n) = n)
      by (induction n; intros; simpl; auto).
    rewrite L. lia.
Qed.

End BuilderProperties.

Section BuilderClaims.

Local Open Scope string_scope.
Local Open Scope list_scope.
Local Open Scope Z_scope.

(** A range that ends on [date.max] cannot be completed: after the record
    of the last day the loop adds a day to [date.max]. *)
Lemma daily_loop_overflow :
  forall n d cursors results,
    holds_labels cursors ->
    1 <= d ->
    Z.of_nat n = MAXORDINAL - d ->
    daily_loop MAXORDINAL d cursors results = Raise OverflowError.
Proof.
  induction n as [|n IH]; intros d cursors results Hl Hd Hn;
    rewrite daily_loop_step;
    (destruct (Z.leb_spec d MAXORDINAL); [|lia]);
    destruct (score_day_ok cursors d Hl) as (r & cs & Hs & Hr & Hk);
    rewrite Hs; unfold date_add_days;
    (destruct (Z.ltb_spec 0 (d + 1)); [|lia]).
  - destruct (Z.leb_spec (d + 1) MAXORDINAL); [lia|]. reflexivity.
  - destruct (Z.leb_spec (d + 1) MAXORDINAL); [|lia]. simpl.
    apply IH; [|lia|lia].
    intros l Hin. rewrite Hk. apply Hl, Hin.
Qed.

Lemma build_daily_history_overflow http start_date api_key history_series :
  fetch_all http start_date api_key series_map [] = Ok history_series ->
  1 <= start_date <= MAXORDINAL ->
  build_daily_history http start_date MAXORDINAL api_key
  = Raise OverflowError.
Proof.
  intros Hf Hrange. unfold build_daily_history. rewrite Hf. simpl.
  apply (daily_loop_overflow (Z.to_nat (MAXORDINAL - start_date)));
    [|lia|lia].
  intros l Hin. apply make_cursors_keys.
  apply (fetch_all_keys _ _ _ _ _ _ Hf). left. exact Hin.
Qed.

(** C2 on the range that is the single day [date.max], with every series
    retrieved (and empty): one record is due, for a valid date and a range
    in order, but the code raises [OverflowError] when it adds a day to
    [date.max] after the last record, and returns nothing.  (Ranges that
    end before [date.max] are complete: [build_daily_history_complete].) *)
Theorem build_daily_history_raises_at_date_max :
  valid_date MAXORDINAL /\ MAXORDINAL <= MAXORDINAL /\
  build_daily_history empty_provider MAXORDINAL MAXORDINAL "key"
  = Raise OverflowError.
Proof.
  split; [unfold valid_date, MAXORDINAL; lia|]. split; [lia|].
  apply (build_daily_history_overflow empty_provider MAXORDINAL "key" _
           eq_refl).
  unfold MAXORDINAL. lia.
Qed.

(** C10: with [start_date] after [end_date] and every series retrieved,
    [build_daily_history] raises nothing and returns the empty list; the
    loop returns the results it starts with, whatever the cursors are, so
    no day is scored. *)
Theorem build_daily_history_empty_range (http : provider)
  (start_date end_date : date) (api_key : string)
  (history_series : dict (list observation)) :
  end_date < start_date ->
  fetch_all http start_date api_key series_map [] = Ok history_series ->
  build_daily_history http start_date end_date api_key = Ok [] /\
  forall cursors results,
    daily_loop end_date start_date cursors results = Ok results.
Proof.
  intros Hlt Hf.
  assert (Hloop : forall cursors results,
             daily_loop end_date start_date cursors results = Ok results).
  { intros cursors results. rewrite daily_loop_step.
    destruct (Z.leb_spec start_date end_date); [lia|reflexivity]. }
  split; [|exact Hloop].
  unfold build_daily_history. rewrite Hf. simpl. apply Hloop.
Qed.

Lemma build_daily_history_empty_range_witness :
  build_daily_history empty_provider 738005 738000 "key" = Ok [] /\
  forall cursors results,
    daily_loop 738000 738005 cursors results = Ok results.
Proof.
  apply (build_daily_history_empty_range empty_provider 738005 738000 "key"
           _ ltac:(lia) eq_refl).
Defined.

End BuilderClaims.

Section CursorWitnesses.

Local Open Scope string_scope.
Local Open Scope list_scope.
Local Open Scope Z_scope.

Lemma sample_series_ascending : ascending sample_series.
Proof. unfold ascending, sample_series. repeat constructor; simpl; lia. Defined.

Lemma sample_dates_nondecreasing : nondecreasing sample_dates.
Proof. unfold nondecreasing, sample_dates. repeat constructor; lia. Defined.

Lemma get_value_forward_fill_witness :
  (exists cursors',
      query_dates sample_cursors "unemployment" sample_dates
      = Ok (map (value_as_of sample_series) sample_dates, cursors')) /\
  (sample_series = [] ->
   map (value_as_of sample_series) sample_dates
   = map (fun _ => None) sample_dates) /\
  (forall d, In d sample_dates ->
     (forall o, hd_error sample_series = Some o -> d < fst o) ->
     value_as_of sample_series d = None).
Proof.
  apply (get_value_forward_fill sample_cursors "unemployment" sample_series
           sample_dates eq_refl sample_series_ascending
           sample_dates_nondecreasing).
Defined.

(** The values that the six queries of the sample return. *)
Example sample_values :
  map (value_as_of sample_series) sample_dates
  = [None; Some 4.5; Some 4.5; Some 6.0; Some 6.0; Some 6.0]%float.
Proof. vm_compute. reflexivity. Qed.

Lemma get_value_idempotent_witness :
  get_value
    [("unemployment",
      {| obs := sample_series; idx := 1; current := Some 4.5%float |})]
    "unemployment" 738010
  = Ok (Some 4.5%float,
        [("unemployment",
          {| obs := sample_series; idx := 1; current := Some 4.5%float |})]).
Proof.
  apply (get_value_idempotent sample_cursors "unemployment" 738010
           (Some 4.5%float)
           [("unemployment",
             {| obs := sample_series; idx := 1; current := Some 4.5%float |})]
           eq_refl).
Defined.

End CursorWitnesses.

(* ===================================================================== *)
(** * Further properties of the risk scorer *)
(* ===================================================================== *)

Section ComparisonFacts.

Local Open Scope Z_scope.

Lemma SFcompare_antisym x y :
  SFcompare y x = option_map CompOpp (SFcompare x y).
Proof.
  destruct x as [sx|sx| |sx mx ex], y as [sy|sy| |sy my ey];
    try destruct sx; try destruct sy; try reflexivity;
    unfold SFcompare, option_map; f_equal;
    rewrite (Z.compare_antisym ex ey);
    destruct (ex ?= ey); simpl; try reflexivity;
    fold (Pos.compare mx my); fold (Pos.compare my mx);
    rewrite (Pos.compare_antisym mx my);
    destruct (Pos.compare mx my); reflexivity.
Qed.

(** [b < a] and [a <= x] leave no room for [x < b]. *)
Lemma SFltb_SFleb_trans b a x :
  SFltb b a = true -> SFleb a x = true -> SFltb x b = false.
Proof.
  unfold SFltb, SFleb.
  destruct b as [sb|sb| |sb mb eb], a as [sa|sa| |sa ma ea],
    x as [sx|sx| |sx mx ex];
    try destruct sb; try destruct sa; try destruct sx;
    unfold SFcompare; try discriminate; try reflexivity;
    repeat match goal with
      | |- context [Pos.compare_cont Eq ?p ?q] => fold (Pos.compare p q)
      end;
    repeat match goal with
      | |- context [Z.compare ?p ?q] =>
          destruct (Z.compare_spec p q); try discriminate; try reflexivity
      | |- context [Pos.compare ?p ?q] =>
          destruct (Pos.compare_spec p q); try discriminate; try reflexivity
      end;
    intros; exfalso; subst; lia.
Qed.

(** A float that compares equal to a finite number other than zero is that
    number. *)
Lemma SFcompare_finite_eq s m e y :
  SFcompare (S754_finite s m e) y = Some Eq -> y = S754_finite s m e.
Proof.
  destruct y as [sy|sy| |sy my ey]; unfold SFcompare;
    try (destruct s; discriminate); try destruct sy; try discriminate.
  all: destruct s; try discriminate;
    fold (Pos.compare m my);
    destruct (Z.compare_spec e ey); try discriminate;
    destruct (Pos.compare_spec m my); try discriminate;
    intros _; subst; reflexivity.
Qed.

End ComparisonFacts.

Section ScorerFurther.

Local Open Scope float_scope.

Lemma leb_not_ltb x y : (x <=? y) = true -> (y <? x) = false.
Proof.
  rewrite leb_spec, ltb_spec. unfold SFleb, SFltb.
  rewrite (SFcompare_antisym (Prim2SF x) (Prim2SF y)).
  destruct (SFcompare (Prim2SF x) (Prim2SF y)) as [[]|]; simpl; congruence.
Qed.

Lemma ltb_leb_trans b a x :
  (b <? a) = true -> (a <=? x) = true -> (x <? b) = false.
Proof. rewrite !ltb_spec, leb_spec. apply SFltb_SFleb_trans. Qed.

(** Between a finite number other than zero and a float that is at least
    it and not greater, there is no difference. *)
Lemma leb_not_ltb_eq a x s m e :
  Prim2SF a = S754_finite s m e ->
  (a <=? x) = true -> (a <? x) = false -> x = a.
Proof.
  intros Ha. rewrite leb_spec, ltb_spec, Ha. unfold SFleb, SFltb.
  destruct (SFcompare (S754_finite s m e) (Prim2SF x)) as [[]|] eqn:E;
    try discriminate.
  intros _ _. apply SFcompare_finite_eq in E.
  apply Prim2SF_inj. congruence.
Qed.

Lemma is_nan_eq v : is_nan v = true -> v = nan.
Proof.
  unfold is_nan. rewrite FloatAxioms.eqb_spec. intros H. apply Prim2SF_inj.
  change (Prim2SF nan) with S754_nan.
  destruct (Prim2SF v) as [s|s| |s m e]; try reflexivity; exfalso;
    unfold SFeqb, SFcompare in H; try destruct s; try discriminate;
    rewrite Z.compare_refl in H; fold (Pos.compare m m) in H;
    rewrite Pos.compare_refl in H; discriminate.
Qed.

Lemma sub_nan_l b : nan - b = nan.
Proof.
  apply Prim2SF_inj. rewrite sub_spec.
  change (Prim2SF nan) with S754_nan. reflexivity.
Qed.

Lemma sub_nan_r a : a - nan = nan.
Proof.
  apply Prim2SF_inj. rewrite sub_spec.
  change (Prim2SF nan) with S754_nan.
  destruct (Prim2SF a); reflexivity.
Qed.

Lemma yield_curve_term_reading y10 y2 risk :
  yield_curve_term (yield_curve (reading y10) (reading y2)) risk
  = yield_curve_term (yield_curve y10 y2) risk.
Proof.
  destruct y10 as [a|], y2 as [b|]; simpl; try reflexivity.
  - destruct (is_nan a) eqn:Ea.
    + apply is_nan_eq in Ea. subst a. rewrite sub_nan_l.
      destruct (is_nan b); reflexivity.
    + destruct (is_nan b) eqn:Eb; [|reflexivity].
      apply is_nan_eq in Eb. subst b. rewrite sub_nan_r. reflexivity.
  - destruct (is_nan a); reflexivity.
Qed.

(** X1: a reading that is NaN is scored as an absent reading: replacing
    every NaN input of [compute_risk] by [None] leaves the risk score
    unchanged. *)
Theorem compute_risk_nan_reading_is_absent
  (yield_10y yield_2y unemployment initial_claims gdp_growth industrial_prod
   consumer_sentiment credit_spread housing_starts : option float) :
  fst (compute_risk yield_10y yield_2y unemployment initial_claims
         gdp_growth industrial_prod consumer_sentiment credit_spread
         housing_starts)
  = fst (compute_risk (reading yield_10y) (reading yield_2y)
           (reading unemployment) (reading initial_claims)
           (reading gdp_growth) industrial_prod
           (reading consumer_sentiment) (reading credit_spread)
           housing_starts).
Proof.
  unfold compute_risk. cbv zeta. simpl fst. do 2 f_equal.
  unfold raw_risk. rewrite yield_curve_term_reading.
  generalize (yield_curve_term (yield_curve yield_10y yield_2y) 15).
  intros r0.
  assert (Hu : forall r, unemployment_term (reading unemployment) r
                         = unemployment_term unemployment r).
  { intros r. destruct unemployment as [v|]; simpl; [|reflexivity].
    destruct (is_nan v) eqn:E; [|reflexivity].
    apply is_nan_eq in E. subst v. reflexivity. }
  assert (Hc : forall r, initial_claims_term (reading initial_claims) r
                         = initial_claims_term initial_claims r).
  { intros r. destruct initial_claims as [v|]; simpl; [|reflexivity].
    destruct (is_nan v) eqn:E; [|reflexivity].
    apply is_nan_eq in E. subst v. reflexivity. }
  assert (Hg : forall r, gdp_term (reading gdp_growth) r
                         = gdp_term gdp_growth r).
  { intros r. destruct gdp_growth as [v|]; simpl; [|reflexivity].
    destruct (is_nan v) eqn:E; [|reflexivity].
    apply is_nan_eq in E. subst v. reflexivity. }
  assert (Hs : forall r, consumer_sentiment_term (reading consumer_sentiment) r
                         = consumer_sentiment_term consumer_sentiment r).
  { intros r. destruct consumer_sentiment as [v|]; simpl; [|reflexivity].
    destruct (is_nan v) eqn:E; [|reflexivity].
    apply is_nan_eq in E. subst v. reflexivity. }
  assert (Hp : forall r, credit_spread_term (reading credit_spread) r
                         = credit_spread_term credit_spread r).
  { intros r. destruct credit_spread as [v|]; simpl; [|reflexivity].
    destruct (is_nan v) eqn:E; [|reflexivity].
    apply is_nan_eq in E. subst v. reflexivity. }
  rewrite Hu, Hc, Hg, Hs, Hp. reflexivity.
Qed.

(** X2: when every reading present lies in the band where its term adds
    nothing (spread in [0, 0.5], unemployment in [4, 5], claims at most
    300000, growth at least 2, sentiment at least 90, credit spread at most
    2.5), the risk score is the base score 15.0. *)
Theorem compute_risk_calm_is_base
  (yield_10y yield_2y unemployment initial_claims gdp_growth industrial_prod
   consumer_sentiment credit_spread housing_starts : option float) :
  calm 0 0.5 (yield_curve yield_10y yield_2y) = true ->
  calm 4.0 5.0 unemployment = true ->
  at_most 300000 initial_claims = true ->
  at_least 2.0 gdp_growth = true ->
  at_least 90 consumer_sentiment = true ->
  at_most 2.5 credit_spread = true ->
  compute_risk yield_10y yield_2y unemployment initial_claims gdp_growth
    industrial_prod consumer_sentiment credit_spread housing_starts
  = (15.0, yield_curve yield_10y yield_2y).
Proof.
  intros Hy Hu Hc Hg Hs Hp. unfold compute_risk. cbv zeta.
  assert (E : raw_risk (yield_curve yield_10y yield_2y) unemployment
                initial_claims gdp_growth consumer_sentiment credit_spread
              = 15).
  { unfold raw_risk.
    assert (E1 : forall r,
               yield_curve_term (yield_curve yield_10y yield_2y) r = r).
    { intros r. destruct (yield_curve yield_10y yield_2y) as [yc|];
        [|reflexivity].
      simpl in *. apply andb_prop in Hy. destruct Hy as [Hlo Hhi].
      rewrite (ltb_leb_trans (-0.5) 0 yc eq_refl Hlo).
      rewrite (leb_not_ltb _ _ Hlo), (leb_not_ltb _ _ Hhi). reflexivity. }
    assert (E2 : forall r, unemployment_term unemployment r = r).
    { intros r. destruct unemployment as [u|]; [|reflexivity].
      simpl in *. apply andb_prop in Hu. destruct Hu as [Hlo Hhi].
      rewrite (leb_not_ltb _ _ Hlo), (leb_not_ltb _ _ Hhi). reflexivity. }
    assert (E3 : forall r, initial_claims_term initial_claims r = r).
    { intros r. destruct initial_claims as [c|]; [|reflexivity].
      simpl in *. rewrite (leb_not_ltb _ _ Hc). reflexivity. }
    assert (E4 : forall r, gdp_term gdp_growth r = r).
    { intros r. destruct gdp_growth as [g|]; [|reflexivity].
      simpl in *. rewrite (ltb_leb_trans 0 2 g eq_refl Hg).
      rewrite (leb_not_ltb _ _ Hg). reflexivity. }
    assert (E5 : forall r, consumer_sentiment_term consumer_sentiment r = r).
    { intros r. destruct consumer_sentiment as [cs|]; [|reflexivity].
      simpl in *. rewrite (ltb_leb_trans 70 90 cs eq_refl Hs).
      rewrite (leb_not_ltb _ _ Hs). reflexivity. }
    assert (E6 : forall r, credit_spread_term credit_spread r = r).
    { intros r. destruct credit_spread as [p|]; [|reflexivity].
      simpl in *. rewrite (leb_not_ltb _ _ Hp). reflexivity. }
    rewrite E1, E2, E3, E4, E5, E6. reflexivity. }
  rewrite E. f_equal.
Qed.

Lemma compute_risk_calm_is_base_witness :
  compute_risk (Some 4.25) (Some 4.0) (Some 4.5) (Some 250000) (Some 2.5)
    (Some 103.2) (Some 95) (Some 1.0) None
  = (15.0, yield_curve (Some 4.25) (Some 4.0)).
Proof.
  apply (compute_risk_calm_is_base (Some 4.25) (Some 4.0) (Some 4.5)
           (Some 250000) (Some 2.5) (Some 103.2) (Some 95) (Some 1.0) None
           eq_refl eq_refl eq_refl eq_refl eq_refl eq_refl).
Defined.

(** X3: the clamp of line 105 changes nothing when the running score is
    already between 5.0 and 95.0. *)
Theorem clamp_in_range_unchanged (risk : float) :
  (5.0 <=? risk) = true -> (risk <=? 95.0) = true -> clamp risk = risk.
Proof.
  intros Hlo Hhi. unfold clamp, py_min, py_max.
  destruct (risk <? 95) eqn:E95.
  - destruct (5 <? risk) eqn:E5; [reflexivity|].
    symmetry. eapply (leb_not_ltb_eq 5 risk); eauto.
    vm_compute. reflexivity.
  - assert (R : 95 = risk).
    { pose proof (leb_not_ltb _ _ Hhi) as N.
      rewrite leb_spec in Hhi. rewrite ltb_spec in E95, N.
      apply Prim2SF_inj. symmetry.
      replace (Prim2SF 95) with (S754_finite false 6685030696878080 (-46))
        in * by (vm_compute; reflexivity).
      apply SFcompare_finite_eq.
      rewrite SFcompare_antisym. unfold SFleb, SFltb in *.
      destruct (SFcompare (Prim2SF risk)
                  (S754_finite false 6685030696878080 (-46))) as [[]|];
        try discriminate. reflexivity. }
    rewrite <- R. reflexivity.
Qed.

Lemma clamp_in_range_unchanged_witness : clamp 23.0 = 23.0.
Proof. apply (clamp_in_range_unchanged 23.0 eq_refl eq_refl). Defined.

End ScorerFurther.

(* ===================================================================== *)
(** * Further properties of the cursors *)
(* ===================================================================== *)

Section CursorFurther.

Local Open Scope string_scope.
Local Open Scope list_scope.
Local Open Scope Z_scope.

(** What the loop of [get_value] does to the index and the carried value. *)
Lemma advance_effect (rest : list observation) d :
  forall i cur i' cur',
    advance rest d i cur = (i', cur') ->
    (i <= i' <= i + List.length rest)%nat /\
    (cur' = cur \/
     exists d0 x, cur' = Some x /\ In (d0, x) rest /\ d0 <= d) /\
    (cur <> None -> cur' <> None).
Proof.
  induction rest as [|[d0 v] rest IH]; intros i cur i' cur' H; simpl in H.
  - inversion H; subst. simpl. repeat split; auto; lia.
  - destruct (Z.leb_spec d0 d) as [Hle|Hgt].
    + destruct (IH _ _ _ _ H) as (Hi & Hv & Hn). simpl. repeat split.
      * lia.
      * lia.
      * right. destruct Hv as [->|(d1 & x & -> & Hin & Hd)].
        -- exists d0, v. simpl. auto.
        -- exists d1, x. simpl. auto.
      * intros _. apply Hn. discriminate.
    + inversion H; subst. simpl. repeat split; auto; lia.
Qed.

(** Where the loop stops for a date, it stops for every earlier date. *)
Lemma advance_stop_earlier (rest : list observation) d d' i cur :
  advance rest d i cur = (i, cur) -> d' <= d ->
  advance rest d' i cur = (i, cur).
Proof.
  destruct rest as [|[d0 v] rest]; [reflexivity|]. simpl.
  destruct (Z.leb_spec d0 d) as [Hle|Hgt].
  - intros H. apply advance_effect in H. lia.
  - intros _ Hd. destruct (Z.leb_spec d0 d'); [lia|reflexivity].
Qed.

Lemma cursor_value_effect c d v c' :
  cursor_value c d = (v, c') ->
  obs c' = obs c /\ current c' = v /\
  (idx c <= idx c')%nat /\
  ((idx c <= List.length (obs c))%nat ->
   (idx c' <= List.length (obs c))%nat) /\
  (v = current c \/ exists d0 x, v = Some x /\ In (d0, x) (obs c) /\ d0 <= d) /\
  (current c <> None -> v <> None).
Proof.
  unfold cursor_value.
  destruct (advance (skipn (idx c) (obs c)) d (idx c) (current c))
    as [i' cur'] eqn:E.
  intros H. inversion H; subst. simpl.
  destruct (advance_effect _ _ _ _ _ _ E) as (Hi & Hv & Hn).
  rewrite length_skipn in Hi. repeat split; auto; try lia.
  destruct Hv as [->|(d0 & x & -> & Hin & Hd)]; [left; reflexivity|].
  right. exists d0, x. repeat split; auto.
  rewrite <- (firstn_skipn (idx c) (obs c)). apply in_or_app. auto.
Qed.

Lemma cursor_value_earlier c d v c' d' :
  cursor_value c d = (v, c') -> d' <= d -> cursor_value c' d' = (v, c').
Proof.
  unfold cursor_value.
  destruct (advance (skipn (idx c) (obs c)) d (idx c) (current c))
    as [i1 cur1] eqn:E.
  intros H Hd. inversion H; subst. simpl.
  destruct (advance_fixed _ _ _ _ _ _ E) as [Hle Hstop].
  rewrite skipn_skipn in Hstop.
  replace (i1 - idx c + idx c)%nat with i1 in Hstop by lia.
  rewrite (advance_stop_earlier _ _ _ _ _ Hstop Hd). reflexivity.
Qed.

Lemma get_value_inv cursors label d v cursors' :
  get_value cursors label d = Ok (v, cursors') ->
  exists c c',
    dict_get cursors label = Some c /\ cursor_value c d = (v, c') /\
    cursors' = dict_set cursors label c'.
Proof.
  unfold get_value. destruct (dict_get cursors label) as [c|]; [|discriminate].
  destruct (cursor_value c d) as [v0 c'] eqn:E. intros H. inversion H; subst.
  exists c, c'. auto.
Qed.

(** X4: a cursor does not rewind: after [get_value(label, d)], a call for
    the same label at [d] or any earlier date returns the value that the
    first call returned and changes nothing. *)
Theorem get_value_does_not_rewind (cursors : dict cursor) (label : string)
  (d d' : date) (v : option float) (cursors' : dict cursor) :
  get_value cursors label d = Ok (v, cursors') ->
  d' <= d ->
  get_value cursors' label d' = Ok (v, cursors').
Proof.
  intros H Hd. destruct (get_value_inv _ _ _ _ _ H) as (c & c' & Hc & Hv & ->).
  unfold get_value. rewrite dict_get_set_same.
  rewrite (cursor_value_earlier _ _ _ _ _ Hv Hd), dict_set_set. reflexivity.
Qed.

Lemma get_value_does_not_rewind_witness :
  get_value
    [("unemployment",
      {| obs := sample_series; idx := 2; current := Some 6.0%float |})]
    "unemployment" 738010
  = Ok (Some 6.0%float,
        [("unemployment",
          {| obs := sample_series; idx := 2; current := Some 6.0%float |})]).
Proof.
  apply (get_value_does_not_rewind sample_cursors "unemployment" 738100
           738010 (Some 6.0%float)
           [("unemployment",
             {| obs := sample_series; idx := 2; current := Some 6.0%float |})]
           eq_refl ltac:(lia)).
Defined.





(** X7: what a call of [get_value] does to the cursor of its label: the
    series is untouched, the index does not decrease and stays within the
    series when it was, and the carried value is the value returned. *)
Theorem get_value_cursor_invariants (cursors : dict cursor) (label : string)
  (d : date) (v : option float) (cursors' : dict cursor) (c : cursor) :
  get_value cursors label d = Ok (v, cursors') ->
  dict_get cursors label = Some c ->
  exists c',
    dict_get cursors' label = Some c' /\
    obs c' = obs c /\ current c' = v /\
    (idx c <= idx c')%nat /\
    ((idx c <= List.length (obs c))%nat ->
     (idx c' <= List.length (obs c))%nat).
Proof.
  intros H Hc.
  destruct (get_value_inv _ _ _ _ _ H) as (c0 & c' & Hc0 & Hv & ->).
  rewrite Hc in Hc0. inversion Hc0; subst c0.
  destruct (cursor_value_effect _ _ _ _ Hv) as (Ho & Hcur & Hi & Hb & _).
  exists c'. rewrite dict_get_set_same. auto.
Qed.

Lemma get_value_cursor_invariants_witness :
  exists c',
    dict_get
      [("unemployment",
        {| obs := sample_series; idx := 1; current := Some 4.5%float |})]
      "unemployment" = Some c' /\
    obs c' = sample_series /\ current c' = Some 4.5%float /\
    (0 <= idx c')%nat /\
    ((0 <= List.length sample_series)%nat ->
     (idx c' <= List.length sample_series)%nat).
Proof.
  apply (get_value_cursor_invariants sample_cursors "unemployment" 738010
           (Some 4.5%float) _
           {| obs := sample_series; idx := 0; current := None |}
           eq_refl eq_refl).
Defined.

(** X8: forward filling never forgets: once [get_value] has returned a
    value for a label, every later call for that label, at any date,
    returns a value. *)
Theorem get_value_keeps_a_value (cursors : dict cursor) (label : string)
  (d : date) (x : float) (cursors' : dict cursor) :
  get_value cursors label d = Ok (Some x, cursors') ->
  forall d', exists y cursors'',
    get_value cursors' label d' = Ok (Some y, cursors'').
Proof.
  intros H d'.
  destruct (get_value_inv _ _ _ _ _ H) as (c & c' & Hc & Hv & ->).
  destruct (cursor_value_effect _ _ _ _ Hv) as (_ & Hcur & _).
  unfold get_value. rewrite dict_get_set_same.
  destruct (cursor_value c' d') as [v2 c2] eqn:E2.
  destruct (cursor_value_effect _ _ _ _ E2) as (_ & _ & _ & _ & _ & Hn).
  destruct v2 as [y|].
  - exists y. eexists. reflexivity.
  - exfalso. apply Hn; congruence.
Qed.

Lemma get_value_keeps_a_value_witness :
  exists y cursors'',
    get_value
      [("unemployment",
        {| obs := sample_series; idx := 1; current := Some 4.5%float |})]
      "unemployment" 737000
    = Ok (Some y, cursors'').
Proof.
  apply (get_value_keeps_a_value sample_cursors "unemployment" 738010
           4.5%float _ eq_refl 737000).
Defined.

(** X9: a value returned by [get_value] is the value carried before the
    call or the value of an observation of the series dated on or before
    the queried date: no observation of a later date is ever shown. *)
Theorem get_value_from_the_past (cursors : dict cursor) (label : string)
  (d : date) (v : option float) (cursors' : dict cursor) (c : cursor) :
  get_value cursors label d = Ok (v, cursors') ->
  dict_get cursors label = Some c ->
  v = current c \/
  exists d0 x, v = Some x /\ In (d0, x) (obs c) /\ d0 <= d.
Proof.
  intros H Hc.
  destruct (get_value_inv _ _ _ _ _ H) as (c0 & c' & Hc0 & Hv & ->).
  rewrite Hc in Hc0. inversion Hc0; subst c0.
  destruct (cursor_value_effect _ _ _ _ Hv) as (_ & _ & _ & _ & Hp & _).
  exact Hp.
Qed.

Lemma get_value_from_the_past_witness :
  Some 4.5%float = None \/
  exists d0 x,
    Some 4.5%float = Some x /\ In (d0, x) sample_series /\ d0 <= 738010.
Proof.
  apply (get_value_from_the_past sample_cursors "unemployment" 738010
           (Some 4.5%float) _
           {| obs := sample_series; idx := 0; current := None |}
           eq_refl eq_refl).
Defined.

End CursorFurther.

(* ===================================================================== *)
(** * Further properties of the series fetcher *)
(* ===================================================================== *)

Section SortFurther.

Local Open Scope Z_scope.

Context {A : Type} (key : A -> Z).



(** Sorting a list that is in order changes nothing. *)
Lemma sort_by_key_sorted_id l :
  StronglySorted (fun a b => key a <= key b) l -> sort_by_key key l = l.
Proof.
  induction 1 as [|x l Hs IH Hall]; [reflexivity|].
  simpl. rewrite IH. destruct l as [|y t]; [reflexivity|].
  simpl. inversion Hall; subst.
  destruct (Z.leb_spec (key x) (key y)); [reflexivity|lia].
Qed.

End SortFurther.

Section FetcherFurther.

Local Open Scope string_scope.
Local Open Scope list_scope.
Local Open Scope Z_scope.

Lemma fetch_series_history_ok http series_id start_date api_key data :
  http series_id start_date api_key = Ok data ->
  fetch_series_history http series_id start_date api_key
  = Ok (sort_by_key fst (kept (entries_of data))).
Proof.
  intros H. unfold fetch_series_history. rewrite H. simpl.
  fold (entries_of data). rewrite fold_keep_observation. reflexivity.
Qed.



(** X11: when the entries that are kept come in ascending order of date, as
    the request asks ([sort_order] is [asc]), the list returned is these
    entries in the order of the response. *)
Theorem fetch_series_history_sorted_response (http : provider)
  (series_id : string) (start_date : date) (api_key : string)
  (data : response) :
  http series_id start_date api_key = Ok data ->
  ascending (kept (entries_of data)) ->
  fetch_series_history http series_id start_date api_key
  = Ok (kept (entries_of data)).
Proof.
  intros Hdata Hs. rewrite (fetch_series_history_ok _ _ _ _ _ Hdata).
  f_equal. apply (sort_by_key_sorted_id fst). exact Hs.
Qed.

Lemma fetch_series_history_sorted_response_witness :
  fetch_series_history
    (fun _ _ _ =>
       Ok {| observations :=
               Some [ {| raw_date := 738000; raw_value := Some "3.9" |};
                      {| raw_date := 738001; raw_value := None |};
                      {| raw_date := 738002; raw_value := Some "4.1" |} ] |})
    "UNRATE" 738000 "key"
  = Ok (kept [ {| raw_date := 738000; raw_value := Some "3.9" |};
               {| raw_date := 738001; raw_value := None |};
               {| raw_date := 738002; raw_value := Some "4.1" |} ]).
Proof.
  apply (fetch_series_history_sorted_response
           (fun _ _ _ =>
              Ok {| observations :=
                      Some [ {| raw_date := 738000; raw_value := Some "3.9" |};
                             {| raw_date := 738001; raw_value := None |};
                             {| raw_date := 738002; raw_value := Some "4.1" |} ] |})
           "UNRATE" 738000 "key" _ eq_refl).
  unfold ascending. vm_compute kept. repeat constructor; simpl; lia.
Defined.

End FetcherFurther.

(* ===================================================================== *)
(** * Further properties of the history builder *)
(* ===================================================================== *)

Section BuilderFurther.

Local Open Scope string_scope.
Local Open Scope list_scope.
Local Open Scope Z_scope.

Lemma dict_get_set {V : Type} (d : dict V) k v k' :
  dict_get (dict_set d k v) k'
  = if String.eqb k k' then Some v else dict_get d k'.
Proof.
  destruct (String.eqb_spec k k') as [->|Hne].
  - apply dict_get_set_same.
  - apply dict_get_set_other, Hne.
Qed.

Lemma dict_keys_set_absent {V : Type} (d : dict V) k v :
  dict_get d k = None -> dict_keys (dict_set d k v) = dict_keys d ++ [k].
Proof.
  induction d as [|[k0 v0] d IH]; simpl; [reflexivity|].
  destruct (String.eqb k0 k); [discriminate|].
  intros H. simpl. f_equal. apply IH, H.
Qed.

Lemma dict_set_nodup {V : Type} (d : dict V) k v :
  NoDup (dict_keys d) -> NoDup (dict_keys (dict_set d k v)).
Proof.
  intros Hd. destruct (dict_get d k) as [v0|] eqn:E.
  - rewrite dict_keys_set_present by congruence. exact Hd.
  - rewrite dict_keys_set_absent by exact E.
    apply NoDup_app; [exact Hd|repeat constructor; auto|].
    intros x Hx [<-|[]]. apply dict_get_in_keys in Hx. congruence.
Qed.

Lemma fetch_series_history_ascending http series_id start_date api_key l :
  fetch_series_history http series_id start_date api_key = Ok l ->
  ascending l.
Proof.
  unfold fetch_series_history.
  destruct (http series_id start_date api_key) as [data|e]; [|discriminate].
  simpl. intros H. inversion H; subst. apply sort_by_key_sorted.
Qed.


(** What the loop of lines 129-134 builds. *)
Lemma fetch_all_result http start_date api_key items :
  forall acc history_series,
    fetch_all http start_date api_key items acc = Ok history_series ->
    (NoDup (dict_keys acc) -> NoDup (dict_keys history_series)) /\
    (all_ascending acc -> all_ascending history_series) /\
    (forall l, ~ In l (map snd items) ->
               dict_get history_series l = dict_get acc l) /\
    (NoDup (map snd items) ->
     forall fred_id label,
       In (fred_id, label) items ->
       exists series,
         fetch_series_history http fred_id start_date api_key = Ok series /\
         dict_get history_series label = Some series).
Proof.
  induction items as [|[fred_id0 label0] items IH]; intros acc hs H;
    simpl in H.
  - inversion H; subst. repeat split; auto. intros _ ? ? [].
  - destruct (fetch_series_history http fred_id0 start_date api_key)
      as [o|e] eqn:Ef; simpl in H; [|discriminate].
    destruct (IH _ _ H) as (Hnd & Hasc & Hother & Heach).
    split; [|split; [|split]].
    + intros Hacc. apply Hnd, dict_set_nodup, Hacc.
    + intros Hacc. apply Hasc. intros l s. rewrite dict_get_set.
      destruct (String.eqb label0 l).
      * intros E. inversion E; subst.
        eapply fetch_series_history_ascending, Ef.
      * apply Hacc.
    + intros l Hl. simpl in Hl. rewrite Hother by tauto.
      apply dict_get_set_other. tauto.
    + intros Hnodup fid lab Hin. simpl in Hnodup.
      apply NoDup_cons_iff in Hnodup. destruct Hnodup as [Hfresh Hrest].
      destruct Hin as [E|Hin].
      * inversion E; subst. exists o. split; [exact Ef|].
        rewrite (Hother lab Hfresh). apply dict_get_set_same.
      * apply (Heach Hrest _ _ Hin).
Qed.



Lemma series_map_labels_nodup : NoDup (map snd series_map).
Proof.
  simpl. repeat constructor; simpl; intuition discriminate.
Qed.

(** With distinct keys, the cursors are the fresh cursors of the series. *)
Lemma make_cursors_get (history_series : dict (list observation)) l :
  NoDup (dict_keys history_series) ->
  dict_get (make_cursors history_series) l
  = option_map (fun series => {| obs := series; idx := 0; current := None |})
      (dict_get history_series l).
Proof.
  unfold make_cursors.
  assert (G : forall (acc : dict cursor),
             NoDup (dict_keys history_series) ->
             dict_get
               (fold_left
                  (fun cursors item =>
                     dict_set cursors (fst item)
                       {| obs := snd item; idx := 0; current := None |})
                  history_series acc) l
             = match dict_get history_series l with
               | Some series =>
                   Some {| obs := series; idx := 0; current := None |}
               | None => dict_get acc l
               end).
  { induction history_series as [|[k o] hs IH]; intros acc Hnd;
      [reflexivity|].
    simpl in Hnd. apply NoDup_cons_iff in Hnd. destruct Hnd as [Hk Hnd].
    simpl. rewrite (IH _ Hnd). rewrite dict_get_set. simpl.
    destruct (String.eqb_spec k l) as [->|Hne].
    - destruct (dict_get hs l) eqn:E; [|reflexivity].
      exfalso. apply Hk, dict_get_in_keys. congruence.
    - reflexivity. }
  intros Hnd. rewrite (G [] Hnd).
  destruct (dict_get history_series l); reflexivity.
Qed.

Lemma cursor_ready_later series c d d' :
  cursor_ready series c d -> d <= d' -> cursor_ready series c d'.
Proof.
  intros (Ho & Hp & Hc) Hd. repeat split; auto.
  eapply Forall_impl; [|exact Hp]. unfold dated_by. intros o Ho'.
  apply Z.leb_le in Ho'. apply Z.leb_le. lia.
Qed.

Lemma cursors_ready_later hs cursors d d' :
  cursors_ready hs cursors d -> d <= d' -> cursors_ready hs cursors d'.
Proof.
  intros H Hd l c Hc. destruct (H l c Hc) as (s & Hs & Hr).
  exists s. split; [exact Hs|]. eapply cursor_ready_later; eauto.
Qed.

(** The comprehension of line 160 reads, for each label, the value as of
    the day, and leaves the cursors ready for that day. *)
Lemma query_all_values hs d :
  all_ascending hs ->
  forall ls cursors vals,
    cursors_ready hs cursors d ->
    (forall l, In l ls -> In l (dict_keys cursors)) ->
    exists vals' cursors',
      query_all ls cursors d vals = Ok (vals', cursors') /\
      cursors_ready hs cursors' d /\
      dict_keys cursors' = dict_keys cursors /\
      (forall l, In l ls ->
                 dict_get vals' l = Some (value_as_of (series_of hs l) d)) /\
      (forall l, ~ In l ls -> dict_get vals' l = dict_get vals l).
Proof.
  intros Hasc. induction ls as [|label ls IH]; intros cursors vals Hr Hin.
  - exists vals, cursors. simpl. repeat split; auto. intros l [].
  - assert (Hk : In label (dict_keys cursors)) by (apply Hin; left; auto).
    apply dict_get_in_keys in Hk.
    destruct (dict_get cursors label) as [c|] eqn:Hc; [|congruence].
    destruct (Hr label c Hc) as (s & Hs & Hready).
    destruct (cursor_value_as_of s c d (Hasc _ _ Hs) Hready) as [Hv Hnext].
    set (c' := snd (cursor_value c d)) in *.
    set (cs1 := dict_set cursors label c').
    assert (Hr1 : cursors_ready hs cs1 d).
    { intros l c1. unfold cs1. rewrite dict_get_set.
      destruct (String.eqb_spec label l) as [<-|Hne].
      - intros E. inversion E; subst. exists s. split; [exact Hs|].
        apply Hnext. lia.
      - apply Hr. }
    assert (Hk1 : dict_keys cs1 = dict_keys cursors)
      by (apply dict_keys_set_present; congruence).
    destruct (IH cs1 (dict_set vals label (fst (cursor_value c d))) Hr1)
      as (vals' & cs2 & Hq & Hr2 & Hk2 & Hin2 & Hout2).
    { intros l Hl. rewrite Hk1. apply Hin. right. exact Hl. }
    exists vals', cs2. simpl.
    rewrite (get_value_cursor _ _ _ _ Hc). simpl. fold c' cs1. rewrite Hq.
    repeat split; auto; try congruence.
    + intros l Hl. destruct (in_dec string_dec l ls) as [Hls|Hls].
      * apply Hin2, Hls.
      * destruct Hl as [<-|Hl]; [|contradiction].
        rewrite (Hout2 _ Hls), dict_get_set_same, Hv.
        unfold series_of. rewrite Hs. reflexivity.
    + intros l Hl. simpl in Hl. rewrite Hout2 by tauto.
      apply dict_get_set_other. tauto.
Qed.

Lemma dict_item_some {V : Type} (d : dict V) k v :
  dict_get d k = Some v -> dict_item d k = Ok v.
Proof. unfold dict_item. intros ->. reflexivity. Qed.

(** One iteration of the loop yields the record that forward filling and
    scoring define. *)
Lemma score_day_values hs cursors d :
  all_ascending hs -> cursors_ready hs cursors d -> holds_labels cursors ->
  exists cursors',
    score_day cursors d = Ok (expected_record hs d, cursors') /\
    cursors_ready hs cursors' d /\ holds_labels cursors'.
Proof.
  intros Hasc Hr Hl. unfold score_day.
  destruct (query_all_values hs d Hasc (dict_keys cursors) cursors [] Hr
              (fun _ H => H)) as (vals & cs & Hq & Hr' & Hk & Hv & _).
  rewrite Hq. simpl.
  assert (Hitem : forall l, In l labels ->
            dict_item vals l = Ok (value_as_of (series_of hs l) d)).
  { intros l Hin. apply dict_item_some, Hv, Hl, Hin. }
  rewrite !Hitem by (simpl; tauto). simpl.
  exists cs. split; [|split].
  - reflexivity.
  - exact Hr'.
  - intros l Hin. rewrite Hk. apply Hl, Hin.
Qed.

Lemma daily_loop_values hs end_date :
  all_ascending hs -> end_date < MAXORDINAL ->
  forall n d cursors results,
    cursors_ready hs cursors d -> holds_labels cursors ->
    1 <= d ->
    Z.of_nat n = Z.max 0 (end_date + 1 - d) ->
    daily_loop end_date d cursors results
    = Ok (results ++ map (expected_record hs) (days_from d n)).
Proof.
  intros Hasc Hmax. induction n as [|n IH];
    intros d cursors results Hr Hl Hd Hn; rewrite daily_loop_step.
  - destruct (Z.leb_spec d end_date); [lia|].
    simpl. rewrite app_nil_r. reflexivity.
  - destruct (Z.leb_spec d end_date); [|lia].
    destruct (score_day_values hs cursors d Hasc Hr Hl)
      as (cs & Hs & Hr' & Hl').
    rewrite Hs. unfold date_add_days.
    destruct (Z.ltb_spec 0 (d + 1)); [|lia].
    destruct (Z.leb_spec (d + 1) MAXORDINAL); [|lia]. simpl.
    rewrite (IH (d + 1) cs); auto; try lia.
    + rewrite <- app_assoc. reflexivity.
    + eapply cursors_ready_later; eauto. lia.
Qed.


End BuilderFurther.

Section BuilderFurtherClaims.

Local Open Scope string_scope.
Local Open Scope list_scope.
Local Open Scope Z_scope.

Lemma fetched_holds_labels http start_date api_key hs :
  fetch_all http start_date api_key series_map [] = Ok hs ->
  holds_labels (make_cursors hs).
Proof.
  intros Hf l Hin. apply make_cursors_keys.
  apply (fetch_all_keys _ _ _ _ _ _ Hf). left. exact Hin.
Qed.

Lemma fetched_cursors_ready http start_date api_key hs d :
  fetch_all http start_date api_key series_map [] = Ok hs ->
  cursors_ready hs (make_cursors hs) d.
Proof.
  intros Hf l c Hc.
  destruct (fetch_all_result _ _ _ _ _ _ Hf) as (Hnd & _).
  rewrite make_cursors_get in Hc by (apply Hnd; constructor).
  destruct (dict_get hs l) as [s|] eqn:E; [|discriminate].
  simpl in Hc. inversion Hc; subst. exists s. split; [reflexivity|].
  apply new_cursor_ready.
Qed.

(** X12: the series that [build_daily_history] keeps under a label of
    [series_map] is what the provider answered for the FRED identifier of
    that label, filtered and sorted by [fetch_series_history]. *)
Theorem fetch_all_series_by_label (http : provider) (start_date : date)
  (api_key : string) (history_series : dict (list observation))
  (fred_id label : string) :
  fetch_all http start_date api_key series_map [] = Ok history_series ->
  In (fred_id, label) series_map ->
  exists data,
    http fred_id start_date api_key = Ok data /\
    dict_get history_series label
    = Some (sort_by_key fst (kept (entries_of data))).
Proof.
  intros Hf Hin.
  destruct (fetch_all_result _ _ _ _ _ _ Hf) as (_ & _ & _ & Heach).
  destruct (Heach series_map_labels_nodup _ _ Hin) as (s & Hs & Hget).
  destruct (http fred_id start_date api_key) as [data|e] eqn:Eh.
  - exists data. split; [reflexivity|].
    rewrite (fetch_series_history_ok _ _ _ _ _ Eh) in Hs.
    inversion Hs; subst. exact Hget.
  - unfold fetch_series_history in Hs. rewrite Eh in Hs. discriminate.
Qed.

Lemma sample_history_fetched start_date :
  fetch_all sample_provider start_date "key" series_map [] = Ok sample_history.
Proof. vm_compute. reflexivity. Defined.

Lemma fetch_all_series_by_label_witness :
  exists data,
    sample_provider "UNRATE" 738000 "key" = Ok data /\
    dict_get sample_history "unemployment"
    = Some (sort_by_key fst (kept (entries_of data))).
Proof.
  apply (fetch_all_series_by_label sample_provider 738000 "key"
           sample_history "UNRATE" "unemployment"
           (sample_history_fetched 738000)).
  simpl. tauto.
Defined.

Lemma build_daily_history_values_aux http start_date end_date api_key hs :
  fetch_all http start_date api_key series_map [] = Ok hs ->
  1 <= start_date ->
  end_date < MAXORDINAL ->
  build_daily_history http start_date end_date api_key
  = Ok (map (expected_record hs)
          (days_from start_date (Z.to_nat (end_date - start_date + 1)))).
Proof.
  intros Hf Hs He. unfold build_daily_history. rewrite Hf. simpl.
  destruct (fetch_all_result _ _ _ _ _ _ Hf) as (_ & Hasc & _).
  rewrite (daily_loop_values hs end_date
             (Hasc ltac:(intros l s; discriminate)) He
             (Z.to_nat (end_date - start_date + 1)));
    auto; try lia.
  - eapply fetched_cursors_ready; eauto.
  - eapply fetched_holds_labels; eauto.
Qed.

(** X13: when every series is retrieved, for a range that starts on a valid
    date and ends before [date.max], [build_daily_history] returns, for
    each day of the range in order, the record whose risk is the score of
    the values that the nine series show as of that day (the last
    observation dated on or before it, or none); an empty range gives no
    record. *)
Theorem build_daily_history_scores_forward_filled (http : provider)
  (start_date end_date : date) (api_key : string)
  (history_series : dict (list observation)) :
  fetch_all http start_date api_key series_map [] = Ok history_series ->
  1 <= start_date ->
  end_date < MAXORDINAL ->
  build_daily_history http start_date end_date api_key
  = Ok (map (expected_record history_series)
          (days_from start_date (Z.to_nat (end_date - start_date + 1)))).
Proof.
  intros Hf Hs He. apply build_daily_history_values_aux; assumption.
Qed.

Lemma build_daily_history_scores_forward_filled_witness :
  build_daily_history sample_provider 738000 738004 "key"
  = Ok (map (expected_record sample_history)
          (days_from 738000 (Z.to_nat (738004 - 738000 + 1)))).
Proof.
  apply (build_daily_history_scores_forward_filled sample_provider 738000
           738004 "key" sample_history (sample_history_fetched 738000));
    unfold MAXORDINAL; lia.
Defined.






(** X17: with a key, on a day from the 731st of the calendar to the day
    before [date.max], and with every series retrieved, [main] hands 731
    records to [json.dump]: one for each day from 730 days before today to
    today, each the score of the values forward filled to that day. *)
Theorem main_saves_trailing_window (key : string) (today : date)
  (http : provider) (history_series : dict (list observation)) :
  key <> "" ->
  731 <= today < MAXORDINAL ->
  fetch_all http (today - 730) key series_map [] = Ok history_series ->
  main (Some key) today http
  = Saved (map (expected_record history_series)
             (days_from (today - 730) 731)).
Proof.
  intros Hkey Hday Hf. unfold main.
  destruct (String.eqb_spec key ""); [contradiction|].
  unfold date_add_days.
  replace (today + -730) with (today - 730) by lia.
  destruct (Z.ltb_spec 0 (today - 730)); [|lia].
  destruct (Z.leb_spec (today - 730) MAXORDINAL); [|lia]. cbn [andb].
  rewrite (build_daily_history_values_aux http (today - 730) today key
             history_series Hf); [|lia|lia].
  replace (Z.to_nat (today - (today - 730) + 1)) with 731%nat by lia.
  reflexivity.
Qed.

Lemma main_saves_trailing_window_witness :
  main (Some "key") 738730 sample_provider
  = Saved (map (expected_record sample_history)
             (days_from (738730 - 730) 731)).
Proof.
  apply (main_saves_trailing_window "key" 738730 sample_provider
           sample_history).
  - discriminate.
  - unfold MAXORDINAL. lia.
  - apply sample_history_fetched.
Defined.

Lemma fetched_series_agree http1 http2 start_date api_key hs1 hs2
  fred_id label :
  fetch_all http1 start_date api_key series_map [] = Ok hs1 ->
  fetch_all http2 start_date api_key series_map [] = Ok hs2 ->
  In (fred_id, label) series_map ->
  http1 fred_id start_date api_key = http2 fred_id start_date api_key ->
  series_of hs1 label = series_of hs2 label.
Proof.
  intros H1 H2 Hin Hsame.
  destruct (fetch_all_result _ _ _ _ _ _ H1) as (_ & _ & _ & Heach1).
  destruct (fetch_all_result _ _ _ _ _ _ H2) as (_ & _ & _ & Heach2).
  destruct (Heach1 series_map_labels_nodup _ _ Hin) as (s1 & Hs1 & Hg1).
  destruct (Heach2 series_map_labels_nodup _ _ Hin) as (s2 & Hs2 & Hg2).
  unfold series_of. rewrite Hg1, Hg2.
  unfold fetch_series_history in Hs1, Hs2. rewrite Hsame in Hs1. congruence.
Qed.

(** X18: the industrial production and housing starts series have no
    influence on the history: two providers that answer alike for the
    seven other series, and from which every series is retrieved, give the
    same records. *)
Theorem build_daily_history_ignores_reserved_series (http1 http2 : provider)
  (start_date end_date : date) (api_key : string)
  (hs1 hs2 : dict (list observation)) :
  (forall fred_id,
     fred_id <> "INDPRO" -> fred_id <> "HOUST" ->
     http1 fred_id start_date api_key = http2 fred_id start_date api_key) ->
  fetch_all http1 start_date api_key series_map [] = Ok hs1 ->
  fetch_all http2 start_date api_key series_map [] = Ok hs2 ->
  1 <= start_date ->
  end_date < MAXORDINAL ->
  build_daily_history http1 start_date end_date api_key
  = build_daily_history http2 start_date end_date api_key.
Proof.
  intros Hsame H1 H2 Hs He.
  rewrite (build_daily_history_values_aux _ _ _ _ _ H1 Hs He).
  rewrite (build_daily_history_values_aux _ _ _ _ _ H2 Hs He).
  f_equal. apply map_ext. intros d. unfold expected_record. cbv zeta.
  rewrite (fetched_series_agree _ _ _ _ _ _ "DGS10" "yield_10y" H1 H2)
    by (simpl; tauto || (apply Hsame; discriminate)).
  rewrite (fetched_series_agree _ _ _ _ _ _ "DGS2" "yield_2y" H1 H2)
    by (simpl; tauto || (apply Hsame; discriminate)).
  rewrite (fetched_series_agree _ _ _ _ _ _ "UNRATE" "unemployment" H1 H2)
    by (simpl; tauto || (apply Hsame; discriminate)).
  rewrite (fetched_series_agree _ _ _ _ _ _ "ICSA" "initial_claims" H1 H2)
    by (simpl; tauto || (apply Hsame; discriminate)).
  rewrite (fetched_series_agree _ _ _ _ _ _ "A191RL1Q225SBEA" "gdp_growth"
             H1 H2)
    by (simpl; tauto || (apply Hsame; discriminate)).
  rewrite (fetched_series_agree _ _ _ _ _ _ "UMCSENT" "consumer_sentiment"
             H1 H2)
    by (simpl; tauto || (apply Hsame; discriminate)).
  rewrite (fetched_series_agree _ _ _ _ _ _ "BAMLC0A4CBBB" "credit_spread"
             H1 H2)
    by (simpl; tauto || (apply Hsame; discriminate)).
  reflexivity.
Qed.

Lemma build_daily_history_ignores_reserved_series_witness :
  build_daily_history sample_provider 738000 738004 "key"
  = build_daily_history
      (fun fred_id start_date api_key =>
         if String.eqb fred_id "HOUST"
         then Ok {| observations := None |}
         else sample_provider fred_id start_date api_key)
      738000 738004 "key".
Proof.
  apply (build_daily_history_ignores_reserved_series sample_provider
           (fun fred_id start_date api_key =>
              if String.eqb fred_id "HOUST"
              then Ok {| observations := None |}
              else sample_provider fred_id start_date api_key)
           738000 738004 "key" sample_history
           (dict_set sample_history "housing_starts" [])).
  - intros fred_id _ Hne. destruct (String.eqb_spec fred_id "HOUST");
      [contradiction|reflexivity].
  - apply sample_history_fetched.
  - vm_compute. reflexivity.
  - lia.
  - unfold MAXORDINAL. lia.
Defined.

(** What an iteration records is a score of [compute_risk] for the day. *)
Lemma score_day_record cursors d record cursors' :
  score_day cursors d = Ok (record, cursors') ->
  record_date record = d /\
  exists y10 y2 u ic g ip cs sp hs,
    record_risk record = fst (compute_risk y10 y2 u ic g ip cs sp hs).
Proof.
  unfold score_day.
  destruct (query_all (dict_keys cursors) cursors d []) as [[vals cs1]|e];
    simpl; [|discriminate].
  destruct (dict_item vals "yield_10y") as [v1|]; simpl; [|discriminate].
  destruct (dict_item vals "yield_2y") as [v2|]; simpl; [|discriminate].
  destruct (dict_item vals "unemployment") as [v3|]; simpl; [|discriminate].
  destruct (dict_item vals "initial_claims") as [v4|]; simpl; [|discriminate].
  destruct (dict_item vals "gdp_growth") as [v5|]; simpl; [|discriminate].
  destruct (dict_item vals "industrial_prod") as [v6|]; simpl;
    [|discriminate].
  destruct (dict_item vals "consumer_sentiment") as [v7|]; simpl;
    [|discriminate].
  destruct (dict_item vals "credit_spread") as [v8|]; simpl; [|discriminate].
  destruct (dict_item vals "housing_starts") as [v9|]; simpl; [|discriminate].
  intros H. inversion H; subst. simpl. split; [reflexivity|].
  exists v1, v2, v3, v4, v5, v6, v7, v8, v9. reflexivity.
Qed.

Lemma compute_risk_in_range y10 y2 u ic g ip cs sp hs :
  let risk := fst (compute_risk y10 y2 u ic g ip cs sp hs) in
  (5 <=? risk)%float = true /\ (risk <=? 95)%float = true.
Proof.
  unfold compute_risk. cbv zeta. simpl fst.
  destruct (clamp_range (raw_risk (yield_curve y10 y2) u ic g cs sp))
    as [Hlo Hhi].
  destruct (round_clamped _ Hlo Hhi) as [n [Hn E]].
  rewrite E. destruct (nearest_tenth_range n Hn) as [A [B _]]. auto.
Qed.

Lemma daily_loop_records (P : daily_record -> Prop) end_date :
  (forall cursors d record cursors',
      score_day cursors d = Ok (record, cursors') -> P record) ->
  forall n d cursors results records,
    Z.of_nat n = Z.max 0 (end_date + 1 - d) ->
    daily_loop end_date d cursors results = Ok records ->
    Forall P results -> Forall P records.
Proof.
  intros HP. induction n as [|n IH];
    intros d cursors results records Hn; rewrite daily_loop_step.
  - destruct (Z.leb_spec d end_date); [lia|].
    intros Hloop. inversion Hloop; subst. auto.
  - destruct (Z.leb_spec d end_date); [|lia].
    destruct (score_day cursors d) as [[r cs]|e] eqn:Hs; [|discriminate].
    unfold date_add_days.
    destruct ((0 <? d + 1) && (d + 1 <=? MAXORDINAL)); [|discriminate].
    intros Hloop Hres. apply (IH (d + 1) cs (results ++ [r]) records); auto;
      [lia|].
    apply Forall_app. split; [exact Hres|].
    constructor; [|constructor]. eapply HP, Hs.
Qed.

(** X19: every record of a history that [build_daily_history] returns has
    a risk between 5.0 and 95.0, whatever the provider answered and
    whatever the range. *)
Theorem build_daily_history_records_in_range (http : provider)
  (start_date end_date : date) (api_key : string)
  (records : list daily_record) :
  build_daily_history http start_date end_date api_key = Ok records ->
  Forall (fun record =>
            (5.0 <=? record_risk record)%float = true /\
            (record_risk record <=? 95.0)%float = true) records.
Proof.
  unfold build_daily_history.
  destruct (fetch_all http start_date api_key series_map []) as [hs|e];
    simpl; [|discriminate].
  intros H.
  apply (daily_loop_records _ end_date) with
    (n := Z.to_nat (Z.max 0 (end_date + 1 - start_date)))
    (d := start_date) (cursors := make_cursors hs) (results := []);
    [|lia|exact H|constructor].
  intros cursors d record cursors' Hs.
  destruct (score_day_record _ _ _ _ Hs)
    as (_ & y10 & y2 & u & ic & g & ip & cs & sp & hs' & ->).
  apply compute_risk_in_range.
Qed.

Lemma build_daily_history_records_in_range_witness :
  Forall (fun record =>
            (5.0 <=? record_risk record)%float = true /\
            (record_risk record <=? 95.0)%float = true)
    (map (expected_record sample_history)
       (days_from 738000 (Z.to_nat (738004 - 738000 + 1)))).
Proof.
  apply (build_daily_history_records_in_range sample_provider 738000 738004
           "key").
  apply (build_daily_history_values_aux sample_provider 738000 738004 "key"
           sample_history (sample_history_fetched 738000));
    unfold MAXORDINAL; lia.
Defined.

End BuilderFurtherClaims.
